(** * Split-stream moral verdict solver

    A shallow embedding of [solve_moral_situation_split_stream], which
    exists in two variants ([high_conflict_z3.py] and [demo.py]), together
    with the properties of its vector mapping, its soft-clause aggregation,
    its use of the optimizer and its verdict decision tree. *)

From Stdlib Require Import String ZArith List Bool Lia.
From Stdlib Require Import Floats.SpecFloat.
From Stdlib Require Import Sorting.Permutation.
Import ListNotations.

Local Open Scope Z_scope.

(** ** Python values and exceptions *)

Module Py.

(** The exceptions the function body can raise on JSON-shaped input. *)
Inductive exn : Type :=
| IndexError
| OverflowError
| ValueError.

Inductive result (A : Type) : Type :=
| Ok (a : A)
| Raise (e : exn).
Arguments Ok {A} a.
Arguments Raise {A} e.

Definition is_ok {A} (r : result A) : bool :=
  match r with Ok _ => true | Raise _ => false end.

Definition rbind {A B} (r : result A) (k : A -> result B) : result B :=
  match r with
  | Ok a => k a
  | Raise e => Raise e
  end.

(** A JSON number as [json.loads] delivers it: an unbounded [int] or a
    binary64 [float]. *)
Inductive num : Type :=
| PyInt (z : Z)
| PyFloat (f : spec_float).

Definition prec : Z := 53.
Definition emax : Z := 1024.

Definition fadd : spec_float -> spec_float -> spec_float := SFadd prec emax.
Definition fmul : spec_float -> spec_float -> spec_float := SFmul prec emax.

(** [int] to [float] as in a mixed operation: round to nearest even, and
    "int too large to convert to float" beyond the range. *)
Definition float_of_int (z : Z) : result spec_float :=
  match binary_normalize prec emax z 0 false with
  | S754_infinity _ => Raise OverflowError
  | f => Ok f
  end.

Definition to_float (x : num) : result spec_float :=
  match x with
  | PyInt z => float_of_int z
  | PyFloat f => Ok f
  end.

(** [x + y] *)
Definition add (x y : num) : result num :=
  match x, y with
  | PyInt a, PyInt b => Ok (PyInt (a + b))
  | _, _ =>
      rbind (to_float x) (fun a =>
      rbind (to_float y) (fun b => Ok (PyFloat (fadd a b))))
  end.

(** [x * y] *)
Definition mul (x y : num) : result num :=
  match x, y with
  | PyInt a, PyInt b => Ok (PyInt (a * b))
  | _, _ =>
      rbind (to_float x) (fun a =>
      rbind (to_float y) (fun b => Ok (PyFloat (fmul a b))))
  end.

Definition cond_opp (s : bool) (z : Z) : Z := if s then - z else z.

(** The integer part of the finite float [(-1)^s * m * 2^e]. *)
Definition trunc_finite (s : bool) (m : positive) (e : Z) : Z :=
  if 0 <=? e then cond_opp s (Zpos m * 2 ^ e)
  else Z.quot (cond_opp s (Zpos m)) (2 ^ (- e)).

(** [int(x)] *)
Definition int (x : num) : result Z :=
  match x with
  | PyInt z => Ok z
  | PyFloat (S754_zero _) => Ok 0
  | PyFloat (S754_infinity _) => Raise OverflowError
  | PyFloat S754_nan => Raise ValueError
  | PyFloat (S754_finite s m e) => Ok (trunc_finite s m e)
  end.

(** [x == z] for an integer literal [z]: the comparison of a float with
    an int is exact. *)
Definition float_eqb_int (f : spec_float) (z : Z) : bool :=
  match f with
  | S754_zero _ => z =? 0
  | S754_finite s m e =>
      if 0 <=? e then cond_opp s (Zpos m * 2 ^ e) =? z
      else cond_opp s (Zpos m) =? z * 2 ^ (- e)
  | _ => false
  end.

Definition eqb_int (x : num) (z : Z) : bool :=
  match x with
  | PyInt a => a =? z
  | PyFloat f => float_eqb_int f z
  end.

(** [l[i]] for a non-negative literal index. *)
Definition index {A} (l : list A) (i : nat) : result A :=
  match nth_error l i with
  | Some a => Ok a
  | None => Raise IndexError
  end.

(** [d.get(key, default)] where the key's value, when present, is [v]. *)
Definition get {A} (v : option A) (default : A) : A :=
  match v with
  | Some a => a
  | None => default
  end.

(** Float literals used in examples. *)
Definition f_half : spec_float := S754_finite false 4503599627370496 (-53).
Definition f_one : spec_float := S754_finite false 4503599627370496 (-52).
Definition f_0_1 : spec_float := S754_finite false 7205759403792794 (-56).
Definition f_0_7 : spec_float := S754_finite false 6305039478318694 (-53).
Definition f_2_9 : spec_float := S754_finite false 6530219459687219 (-51).
Definition f_m2_9 : spec_float := S754_finite true 6530219459687219 (-51).

End Py.

Import Py.

(** ** The optimizer interface used by the function *)

Module Z3.

(** The four Boolean constants declared at the top of the function. *)
Inductive Proposition : Type := harm | intent | empathy | apology.

(** The formulas handed to [add_soft]: a constant or its negation. *)
Inductive BoolRef : Type :=
| Bool (x : Proposition)
| Not (x : Proposition).

Definition proposition (f : BoolRef) : Proposition :=
  match f with Bool x => x | Not x => x end.

Definition polarity (f : BoolRef) : bool :=
  match f with Bool _ => true | Not _ => false end.

Record SoftClause : Type := { formula : BoolRef; weight : Z }.

(** A model, read through [is_true(m[x])]. *)
Record Assignment : Type :=
  { is_harm : bool; is_intent : bool; is_empathy : bool; is_apology : bool }.

Definition value (a : Assignment) (x : Proposition) : bool :=
  match x with
  | harm => is_harm a
  | intent => is_intent a
  | empathy => is_empathy a
  | apology => is_apology a
  end.

Inductive CheckSatResult : Type := sat | unsat | unknown.

Definition is_sat (r : CheckSatResult) : bool :=
  match r with sat => true | _ => false end.

(** The library itself is not part of the repository.  During one call of
    the function a single [Optimize] object is filled and checked once, so
    the library enters that call as the answer it would give to [check()]
    and the model it would then hand out for each list of soft clauses.
    Nothing says that two calls meet the same answers: see [Session]. *)
Record Solver : Type :=
  { check : list SoftClause -> CheckSatResult;
    model : list SoftClause -> Assignment }.

(** An [Optimize()] object: the soft clauses in the order they were
    added, and the answer of [check()] once it has been called. *)
Record Optimize : Type :=
  { soft : list SoftClause; checked : option CheckSatResult }.

Definition new_Optimize : Optimize := {| soft := []; checked := None |}.

(** A clause with polarity [p] on [x] is satisfied iff the assignment
    gives [x] the value [p]. *)
Definition satisfied (a : Assignment) (c : SoftClause) : bool :=
  Bool.eqb (value a (proposition (formula c))) (polarity (formula c)).

Fixpoint satisfied_weight (cs : list SoftClause) (a : Assignment) : Z :=
  match cs with
  | [] => 0
  | c :: cs' =>
      (if satisfied a c then weight c else 0) + satisfied_weight cs' a
  end.

Definition optimal (cs : list SoftClause) (a : Assignment) : Prop :=
  forall a', satisfied_weight cs a' <= satisfied_weight cs a.

End Z3.

Import Z3.

(** ** Statements that run against an [Optimize] object *)

Definition M (A : Type) : Type := Optimize -> result A * Optimize.

Definition ret {A} (a : A) : M A := fun opt => (Ok a, opt).

Definition bind {A B} (c : M A) (k : A -> M B) : M B :=
  fun opt =>
    match c opt with
    | (Ok a, opt') => k a opt'
    | (Raise e, opt') => (Raise e, opt')
    end.

Definition lift {A} (r : result A) : M A := fun opt => (r, opt).

Declare Scope stmt_scope.
Delimit Scope stmt_scope with stmt.
Notation "x <- c ;; k" := (bind c (fun x => k))
  (at level 61, c at next level, right associativity) : stmt_scope.
Notation "c ;;; k" := (bind c (fun _ => k))
  (at level 61, right associativity) : stmt_scope.
Local Open Scope stmt_scope.

(** [opt.add_soft(f, w)] *)
Definition add_soft (f : BoolRef) (w : Z) : M unit :=
  fun opt =>
    (Ok tt, {| soft := soft opt ++ [ {| formula := f; weight := w |} ];
               checked := checked opt |}).

(** [opt.check()] *)
Definition opt_check (z3 : Solver) : M CheckSatResult :=
  fun opt =>
    let r := check z3 (soft opt) in
    (Ok r, {| soft := soft opt; checked := Some r |}).

(** [opt.model()], read through [is_true] at the four constants. *)
Definition opt_model (z3 : Solver) : M Assignment :=
  fun opt => (Ok (model z3 (soft opt)), opt).

(** [for x in l: body(x)] *)
Fixpoint for_each {A} (l : list A) (body : A -> M unit) : M unit :=
  match l with
  | [] => ret tt
  | x :: l' => body x ;;; for_each l' body
  end.

(** ** Input records *)

Record Comment : Type :=
  { comment_content_vector : option (list num);
    comment_quality_vector : option (list num) }.

Record Post : Type :=
  { post_id : option string;
    title : option string;
    processed_comments : option (list Comment) }.

Inductive Verdict : Type := YTA | NTA | NAH | ESH | Unclear | NoData.

(** The string each verdict stands for in the source. *)
Definition label (v : Verdict) : string :=
  match v with
  | YTA => "YTA"
  | NTA => "NTA"
  | NAH => "NAH"
  | ESH => "ESH"
  | Unclear => "Unclear"
  | NoData => "No Data"
  end%string.

(** ** The loop body, identical in both variants *)

Definition default_content : list num := [PyInt 0; PyInt 0; PyInt 0; PyInt 0].
Definition default_quality : list num :=
  [PyInt 1; PyInt 1; PyInt 1; PyInt 1; PyInt 1].

(** [if len(q_vec) < 5: q_vec = q_vec + [1] * (5 - len(q_vec))] *)
Definition pad (q_vec : list num) : list num :=
  if (length q_vec <? 5)%nat
  then q_vec ++ repeat (PyInt 1) (5 - length q_vec)
  else q_vec.

(** [int((a + b) * non_biased)] *)
Definition stream_weight (a b non_biased : num) : result Z :=
  rbind (add a b) (fun s => rbind (mul s non_biased) int).

(** The two branches of [if c == 1: add_soft(x, w) else: add_soft(Not(x), w)]. *)
Definition vote (c : num) (x : Proposition) (w : Z) : M unit :=
  if eqb_int c 1 then add_soft (Bool x) w else add_soft (Not x) w.

Definition comment_body (comment : Comment) : M unit :=
  let c_vec := get (comment_content_vector comment) default_content in
  let q_vec := get (comment_quality_vector comment) default_quality in
  let q_vec := pad q_vec in
  justif <- lift (index q_vec 0) ;;
  ethic <- lift (index q_vec 1) ;;
  delib <- lift (index q_vec 2) ;;
  fair_blame <- lift (index q_vec 3) ;;
  non_biased <- lift (index q_vec 4) ;;
  w_logic <- lift (stream_weight justif delib non_biased) ;;
  w_ethic <- lift (stream_weight ethic fair_blame non_biased) ;;
  c0 <- lift (index c_vec 0) ;;
  vote c0 harm w_logic ;;;
  c1 <- lift (index c_vec 1) ;;
  vote c1 intent w_logic ;;;
  c2 <- lift (index c_vec 2) ;;
  vote c2 empathy w_ethic ;;;
  c3 <- lift (index c_vec 3) ;;
  vote c3 apology w_ethic.

(** ** [high_conflict_z3.py] *)

Module HighConflict.

(** The final rules; the last [elif] has no [else], so the tree itself
    can fall off its end. *)
Definition final_rules (a : Assignment) : option Verdict :=
  if negb (is_harm a) then Some NTA
  else if is_harm a && is_intent a then Some YTA
  else if is_harm a && negb (is_intent a) then
    if is_empathy a || is_apology a then Some NAH else Some ESH
  else None.

(** The function returns a string, or [None] when it reaches its end
    without a [return]. *)
Definition solve_moral_situation_split_stream (z3 : Solver) (post_data : Post)
  : result (option Verdict) * Optimize :=
  let opt := new_Optimize in
  let comments := get (processed_comments post_data) [] in
  match comments with
  | [] => (Ok (Some NoData), opt)
  | _ =>
      (for_each comments comment_body ;;;
       r <- opt_check z3 ;;
       if is_sat r then
         m <- opt_model z3 ;;
         ret (final_rules m)
       else ret None) opt
  end.

End HighConflict.

(** ** [demo.py] *)

Module Demo.

Definition final_rules (a : Assignment) : option Verdict :=
  if is_harm a && is_intent a then Some YTA
  else if negb (is_harm a) then Some NAH
  else if is_harm a && negb (is_intent a) then
    if is_empathy a || is_apology a then Some NTA else Some ESH
  else None.

(** Same as above up to the labels, with a closing [return "Unclear"].
    The progress lines it prints are not modelled. *)
Definition solve_moral_situation_split_stream (z3 : Solver) (post_data : Post)
  : result (option Verdict) * Optimize :=
  let opt := new_Optimize in
  let comments := get (processed_comments post_data) [] in
  match comments with
  | [] => (Ok (Some NoData), opt)
  | _ =>
      (for_each comments comment_body ;;;
       r <- opt_check z3 ;;
       v <- (if is_sat r then
               m <- opt_model z3 ;;
               ret (final_rules m)
             else ret None) ;;
       match v with
       | Some s => ret (Some s)
       | None => ret (Some Unclear)
       end) opt
  end.

End Demo.

(** ** An exhaustive optimizer *)

Module Exhaustive.

Definition booleans : list bool := [false; true].

(** The 16 assignments in lexicographic order over
    [harm, intent, empathy, apology], [false] before [true]. *)
Definition all_assignments : list Assignment :=
  flat_map (fun h =>
  flat_map (fun i =>
  flat_map (fun e =>
  map (fun ap =>
    {| is_harm := h; is_intent := i; is_empathy := e; is_apology := ap |})
    booleans) booleans) booleans) booleans.

(** Keeps the earliest candidate among those of maximal score. *)
Fixpoint argmax (score : Assignment -> Z) (best : Assignment)
         (candidates : list Assignment) : Assignment :=
  match candidates with
  | [] => best
  | a :: rest =>
      argmax score (if score best <? score a then a else best) rest
  end.

Definition all_false : Assignment :=
  {| is_harm := false; is_intent := false;
     is_empathy := false; is_apology := false |}.

(** Modelled from the spec: the search the optimizer library performs is
    not in the repository; this is the exhaustive evaluation of the 16
    assignments that the WeightedOptimizer contract describes, the first
    assignment of maximal satisfied weight in lexicographic order being
    kept. *)
Definition maximize (cs : list SoftClause) : Assignment :=
  argmax (satisfied_weight cs) all_false (tl all_assignments).

(** Modelled from the spec: the optimizer is a third-party library that
    the repository only calls ([Optimize], [add_soft], [check], [model]).
    Following the contract of the WeightedOptimizer, it is the exhaustive
    maximization of the satisfied weight over the 16 assignments, which is
    always feasible, with ties resolved by lexicographic order, [false]
    before [true]. *)
Definition solver : Solver :=
  {| check := fun _ => sat; model := maximize |}.

End Exhaustive.

(** ** Inputs used in examples *)

Definition ints (l : list Z) : list num := map PyInt l.

Definition comment_of (content quality : list Z) : Comment :=
  {| comment_content_vector := Some (ints content);
     comment_quality_vector := Some (ints quality) |}.

Definition post_of (comments : list Comment) : Post :=
  {| post_id := Some "p1"%string; title := Some "t"%string;
     processed_comments := Some comments |}.

(** Scenario A: one comment, content [1,1,0,0], quality [1,1,1,1,1]. *)
Definition scenario_A : Post :=
  post_of [comment_of [1; 1; 0; 0] [1; 1; 1; 1; 1]].

(** A comment whose content vector has two entries only. *)
Definition short_content : Post :=
  post_of [comment_of [1; 1] [1; 1; 1; 1; 1]].

(** A comment without vectors and one with a one-entry quality vector. *)
Definition legacy_post : Post :=
  post_of [ {| comment_content_vector := None;
               comment_quality_vector := None |};
            {| comment_content_vector := Some (ints [1; 0; 1; 0; 7]);
               comment_quality_vector := Some [PyFloat f_2_9] |} ].

Definition empty_post : Post :=
  {| post_id := Some "p0"%string; title := None;
     processed_comments := Some [] |}.

Definition missing_post : Post :=
  {| post_id := None; title := Some "no comments"%string;
     processed_comments := None |}.

(** A run of the library in which [check()] does not answer [sat]. *)
Definition undecided : Solver :=
  {| check := fun _ => unknown; model := fun _ => Exhaustive.all_false |}.

Definition TTFF : Assignment :=
  {| is_harm := true; is_intent := true;
     is_empathy := false; is_apology := false |}.

(** ** Reading the function: names for what a comment contributes *)

(** Entry [k] of a quality vector once padded: absent trailing entries
    count as 1. *)
Definition entry (q_vec : list num) (k : nat) : num := nth k q_vec (PyInt 1).

Definition quality_of (comment : Comment) : list num :=
  get (comment_quality_vector comment) default_quality.

Definition content_of (comment : Comment) : list num :=
  get (comment_content_vector comment) default_content.

(** [int((justification + deliberative) * non_biased)] *)
Definition logic_weight (q_vec : list num) : result Z :=
  stream_weight (entry q_vec 0) (entry q_vec 2) (entry q_vec 4).

(** [int((ethic + fairness) * non_biased)] *)
Definition ethic_weight (q_vec : list num) : result Z :=
  stream_weight (entry q_vec 1) (entry q_vec 3) (entry q_vec 4).

Definition literal (c : num) (x : Proposition) : BoolRef :=
  if eqb_int c 1 then Bool x else Not x.

Definition clause (c : num) (x : Proposition) (w : Z) : SoftClause :=
  {| formula := literal c x; weight := w |}.

(** [z] is the number [x] with its fractional part dropped. *)
Definition truncation_of (x : num) (z : Z) : Prop :=
  match x with
  | PyInt a => z = a
  | PyFloat (S754_zero _) => z = 0
  | PyFloat (S754_finite s m e) =>
      (if s then z <= 0 else 0 <= z) /\
      (if 0 <=? e then Z.abs z = Zpos m * 2 ^ e
       else Z.abs z * 2 ^ (- e) <= Zpos m < (Z.abs z + 1) * 2 ^ (- e))
  | PyFloat _ => False
  end.

(** The number [c] is 1, as an [int] or as a [float]. *)
Definition is_one (c : num) : Prop :=
  match c with
  | PyInt a => a = 1
  | PyFloat (S754_finite false m e) =>
      if 0 <=? e then Zpos m * 2 ^ e = 1 else Zpos m = 2 ^ (- e)
  | PyFloat _ => False
  end.

(** The clauses a comment contributes when nothing raises. *)
Definition votes (c0 c1 c2 c3 : num) (wl we : Z) : list SoftClause :=
  [clause c0 harm wl; clause c1 intent wl;
   clause c2 empathy we; clause c3 apology we].

(** A comment the loop body gets through: four content entries or none
    supplied, and stream sums and products that [int] accepts. *)
Definition content_ok (comment : Comment) : Prop :=
  match comment_content_vector comment with
  | None => True
  | Some c_vec => (4 <= length c_vec)%nat
  end.

Definition weights_ok (comment : Comment) : Prop :=
  is_ok (logic_weight (quality_of comment)) = true /\
  is_ok (ethic_weight (quality_of comment)) = true.

Definition well_formed (comment : Comment) : Prop :=
  content_ok comment /\ weights_ok comment.

(** What either variant does once the loop is over. *)
Definition after_loop (fallthrough : option Verdict)
           (rules : Assignment -> option Verdict)
           (z3 : Solver) (loop : result unit * Optimize)
  : result (option Verdict) * Optimize :=
  match loop with
  | (Ok _, opt) =>
      let r := check z3 (soft opt) in
      (Ok (if is_sat r then rules (model z3 (soft opt)) else fallthrough),
       {| soft := soft opt; checked := Some r |})
  | (Raise e, opt) => (Raise e, opt)
  end.

(** ** Defaults *)

(** The comment with its defaults written out: the content vector it has
    or four zeros, and its quality vector, or five ones, padded. *)
Definition fill_defaults (comment : Comment) : Comment :=
  {| comment_content_vector := Some (content_of comment);
     comment_quality_vector := Some (pad (quality_of comment)) |}.

Definition with_defaults (post_data : Post) : Post :=
  {| post_id := post_id post_data;
     title := title post_data;
     processed_comments :=
       Some (map fill_defaults (get (processed_comments post_data) [])) |}.

(** Content [1, 0, 2, 0.5] with quality [0.7, 1, 0.1, 1, 10]: the logic
    product is 7.999999999999999 and weighs 7, the ethic product weighs 20. *)
Definition float_comment : Comment :=
  {| comment_content_vector :=
       Some [PyInt 1; PyInt 0; PyInt 2; PyFloat f_half];
     comment_quality_vector :=
       Some [PyFloat f_0_7; PyInt 1; PyFloat f_0_1; PyInt 1; PyInt 10] |}.

(** The labels of the two variants correspond under this exchange. *)
Definition swap_labels (v : Verdict) : Verdict :=
  match v with
  | NTA => NAH
  | NAH => NTA
  | other => other
  end.

(** The four soft clauses of scenario A. *)
Definition scenario_A_clauses : list SoftClause :=
  [ {| formula := Bool harm; weight := 2 |};
    {| formula := Bool intent; weight := 2 |};
    {| formula := Not empathy; weight := 2 |};
    {| formula := Not apology; weight := 2 |} ].

(** Scenario A under another identifier and title. *)
Definition scenario_A_again : Post :=
  {| post_id := Some "p2"%string; title := None;
     processed_comments := processed_comments scenario_A |}.

(** Content [0, 2, -1, 0.5]: no entry is 1, all four clauses are negated. *)
Definition out_of_domain : Comment :=
  {| comment_content_vector :=
       Some [PyInt 0; PyInt 2; PyInt (-1); PyFloat f_half];
     comment_quality_vector := None |}.

(** ** What a run leaves in the optimizer *)

(** The four calls of [add_soft] in the order the loop body makes them. *)
Definition ballot (wl we : Z) : list (Proposition * Z) :=
  [(harm, wl); (intent, wl); (empathy, we); (apology, we)].

(** The clauses added from a content vector before the body ends or reads
    past the end of the vector. *)
Definition partial_votes (c_vec : list num) (wl we : Z) : list SoftClause :=
  map (fun cxw => clause (fst cxw) (fst (snd cxw)) (snd (snd cxw)))
      (combine c_vec (ballot wl we)).

(** The clauses one comment adds; none when a weight is undefined, since
    the weights are computed before the first [add_soft]. *)
Definition comment_clauses (comment : Comment) : list SoftClause :=
  match logic_weight (quality_of comment), ethic_weight (quality_of comment) with
  | Ok wl, Ok we => partial_votes (content_of comment) wl we
  | _, _ => []
  end.

(** How the loop body ends on a comment. *)
Definition comment_status (comment : Comment) : result unit :=
  match logic_weight (quality_of comment), ethic_weight (quality_of comment) with
  | Ok _, Ok _ =>
      if (4 <=? length (content_of comment))%nat then Ok tt
      else Raise IndexError
  | Raise e, _ => Raise e
  | Ok _, Raise e => Raise e
  end.

(** Total weight of the clauses of [cs] that ask for [x] to be [b]. *)
Fixpoint support (cs : list SoftClause) (x : Proposition) (b : bool) : Z :=
  match cs with
  | [] => 0
  | c :: cs' =>
      (if match proposition (formula c), x with
          | harm, harm | intent, intent
          | empathy, empathy | apology, apology => Bool.eqb (polarity (formula c)) b
          | _, _ => false
          end
       then weight c else 0) + support cs' x b
  end.

(** [x] has a strict weighted majority for the value [b]. *)
Definition majority (cs : list SoftClause) (x : Proposition) (b : bool) : Prop :=
  support cs x (negb b) < support cs x b.

(** The comments the loop gets through before it stops. *)
Fixpoint processed (comments : list Comment) : list Comment :=
  match comments with
  | [] => []
  | c :: rest =>
      match comment_status c with
      | Ok _ => c :: processed rest
      | Raise _ => [c]
      end
  end.

(** How the loop ends. *)
Fixpoint loop_status (comments : list Comment) : result unit :=
  match comments with
  | [] => Ok tt
  | c :: rest =>
      match comment_status c with
      | Ok _ => loop_status rest
      | Raise e => Raise e
      end
  end.

(** What [demo.py] returns where [high_conflict_z3.py] returns [v]. *)
Definition relabel (v : option Verdict) : option Verdict :=
  match v with
  | Some l => Some (swap_labels l)
  | None => Some Unclear
  end.

Definition rmap {A B} (f : A -> B) (r : result A) : result B :=
  match r with
  | Ok a => Ok (f a)
  | Raise e => Raise e
  end.

(** The comment with the content entries after the fourth dropped. *)
Definition trim_content (comment : Comment) : Comment :=
  {| comment_content_vector :=
       option_map (firstn 4) (comment_content_vector comment);
     comment_quality_vector := comment_quality_vector comment |}.

Definition map_comments (f : Comment -> Comment) (post_data : Post) : Post :=
  {| post_id := post_id post_data;
     title := title post_data;
     processed_comments := option_map (map f) (processed_comments post_data) |}.

(** Two comments that disagree on harm, the second with the larger logic
    weight: content [0,1,0,0] with quality [1,1,1,1,1], then content
    [1,1,0,0] with quality [2,1,3,1,1]. *)
Definition conflict_post : Post :=
  post_of [comment_of [0; 1; 0; 0] [1; 1; 1; 1; 1];
           comment_of [1; 1; 0; 0] [2; 1; 3; 1; 1]].

(** The same two comments in the other order. *)
Definition conflict_post_swapped : Post :=
  post_of [comment_of [1; 1; 0; 0] [2; 1; 3; 1; 1];
           comment_of [0; 1; 0; 0] [1; 1; 1; 1; 1]].

(** Scenario B's comment: content [0,0,1,1], quality [2,1,1,1,0]. *)
Definition muted_comment : Comment := comment_of [0; 0; 1; 1] [2; 1; 1; 1; 0].

(** The assignment [a] with the value of [x] negated. *)
Definition flip (a : Assignment) (x : Proposition) : Assignment :=
  match x with
  | harm => {| is_harm := negb (is_harm a); is_intent := is_intent a;
               is_empathy := is_empathy a; is_apology := is_apology a |}
  | intent => {| is_harm := is_harm a; is_intent := negb (is_intent a);
                 is_empathy := is_empathy a; is_apology := is_apology a |}
  | empathy => {| is_harm := is_harm a; is_intent := is_intent a;
                  is_empathy := negb (is_empathy a);
                  is_apology := is_apology a |}
  | apology => {| is_harm := is_harm a; is_intent := is_intent a;
                  is_empathy := is_empathy a;
                  is_apology := negb (is_apology a) |}
  end.

(** A number that is zero or positive, [+inf] included. *)
Definition nonneg (x : num) : Prop :=
  match x with
  | PyInt z => 0 <= z
  | PyFloat (S754_zero _) => True
  | PyFloat (S754_finite s _ _) => s = false
  | PyFloat (S754_infinity s) => s = false
  | PyFloat S754_nan => False
  end.

(** A number that [int] does not turn into a negative integer. *)
Definition not_below_zero (x : num) : Prop :=
  match x with
  | PyInt z => 0 <= z
  | PyFloat (S754_finite s _ _) => s = false
  | PyFloat _ => True
  end.

(** Every quality entry a comment supplies is zero or positive. *)
Definition quality_nonneg (comment : Comment) : Prop :=
  Forall nonneg (quality_of comment).

(** ** One process, several calls *)

(** The library keeps one context for the whole process: the constants
    declared by [Bool] and every [Optimize()] object live in it, so what
    [check()] and [model()] answer in one call of the function may depend on
    the calls made before it.  A [Solver] is the library as it answers
    during one call; a [Session] gives the solver for each state of the
    context and the state a call leaves behind. *)
Record Session : Type :=
  { z3_context : Type;
    solver_at : z3_context -> Solver;
    after_run : z3_context -> Optimize -> z3_context }.

(** A library whose answers do not depend on the calls made before. *)
Definition stateless (z3 : Solver) : Session :=
  {| z3_context := unit;
     solver_at := fun _ => z3;
     after_run := fun ctx _ => ctx |}.

Definition all_true : Assignment :=
  {| is_harm := true; is_intent := true;
     is_empathy := true; is_apology := true |}.

(** Modelled from the spec: the exhaustive maximization of the
    WeightedOptimizer contract once more, with the opposite tie-break: of
    the assignments of maximal satisfied weight the last in lexicographic
    order is kept, [true] before [false]. *)
Definition maximize_true_first (cs : list SoftClause) : Assignment :=
  Exhaustive.argmax (satisfied_weight cs) all_true
    (tl (rev Exhaustive.all_assignments)).

Definition true_first : Solver :=
  {| check := fun _ => sat; model := maximize_true_first |}.

(** A library that always hands out a model of maximal satisfied weight
    and resolves ties one way on its first, third, ... call and the other
    way on its second, fourth, ... call. *)
Definition alternating : Session :=
  {| z3_context := nat;
     solver_at := fun calls =>
                    if Nat.even calls then Exhaustive.solver else true_first;
     after_run := fun calls _ => S calls |}.

(** Scenario B: one comment, content [0,0,1,1], quality [2,1,1,1,0]; all
    four clauses weigh 0 and every assignment is optimal. *)
Definition tied_post : Post := post_of [muted_comment].

(** ** The batch run of [high_conflict_z3.py] *)

(** An entry of the ground-truth file. *)
Record GroundTruthPost : Type :=
  { gt_post_id : option string;
    ground_truth_label : option string }.

(** A [dict] from strings to strings. *)
Definition Dict : Type := string -> option string.

Definition empty_dict : Dict := fun _ => None.

(** [d[k] = v] *)
Definition dict_set (d : Dict) (k v : string) : Dict :=
  fun k' => if String.eqb k' k then Some v else d k'.

(** [if pid:] for a string or [None]. *)
Definition truthy (pid : option string) : bool :=
  match pid with
  | None => false
  | Some EmptyString => false
  | Some _ => true
  end.

(** One turn of the loop that fills [gt_map]. *)
Definition record_label (gt_map : Dict) (post : GroundTruthPost) : Dict :=
  let pid := gt_post_id post in
  let label := get (ground_truth_label post) "Unknown"%string in
  match pid with
  | Some k => if truthy pid then dict_set gt_map k label else gt_map
  | None => gt_map
  end.

Definition load_ground_truth (gt_data : list GroundTruthPost) : Dict :=
  fold_left record_label gt_data empty_dict.

(** A line of the vector file: blank, not valid JSON, or a post. *)
Inductive Line : Type :=
| Blank
| Malformed
| Json (post : Post).

Record Row : Type :=
  { row_post_id : string;
    row_title : string;
    z3_verdict : option Verdict;
    row_ground_truth : string }.

(** The row written for a post once its verdict is known. *)
Definition make_row (gt_map : Dict) (post : Post) (verdict : option Verdict)
  : Row :=
  let post_id := get (post_id post) "Unknown"%string in
  {| row_post_id := post_id;
     row_title := get (title post) "No Title"%string;
     z3_verdict := verdict;
     row_ground_truth := get (gt_map post_id) "Unknown"%string |}.

(** The loop over the lines: the rows written so far and [count]; an
    exception of the solver leaves the loop with the rows already written.
    Every post of the batch is solved in the same process, each in the
    context the posts before it left. *)
Fixpoint process_lines (z3 : Session) (gt_map : Dict) (lines : list Line)
         (ctx : z3_context z3) (rows : list Row) (count : nat)
  : result nat * list Row :=
  match lines with
  | [] => (Ok count, rows)
  | Blank :: rest => process_lines z3 gt_map rest ctx rows count
  | Malformed :: rest => process_lines z3 gt_map rest ctx rows count
  | Json post :: rest =>
      match HighConflict.solve_moral_situation_split_stream
              (solver_at z3 ctx) post with
      | (Ok verdict, opt) =>
          process_lines z3 gt_map rest (after_run z3 ctx opt)
            (rows ++ [make_row gt_map post verdict]) (S count)
      | (Raise e, _) => (Raise e, rows)
      end
  end.

Definition run_batch (z3 : Session) (ctx : z3_context z3)
           (gt_data : list GroundTruthPost) (lines : list Line)
  : result nat * list Row :=
  process_lines z3 (load_ground_truth gt_data) lines ctx [] 0.

(** The posts among the lines. *)
Fixpoint posts_of (lines : list Line) : list Post :=
  match lines with
  | [] => []
  | Json post :: rest => post :: posts_of rest
  | _ :: rest => posts_of rest
  end.

(** A post all of whose comments the loop body gets through. *)
Definition post_ok (post : Post) : Prop :=
  Forall well_formed (get (processed_comments post) []).

(** The rows of a sequence of posts solved one after the other from the
    context [ctx]. *)
Fixpoint rows_in (z3 : Session) (gt_map : Dict) (ctx : z3_context z3)
         (posts : list Post) : list Row :=
  match posts with
  | [] => []
  | post :: rest =>
      let run := HighConflict.solve_moral_situation_split_stream
                   (solver_at z3 ctx) post in
      make_row gt_map post
        (match fst run with
         | Ok verdict => verdict
         | Raise _ => None
         end)
      :: rows_in z3 gt_map (after_run z3 ctx (snd run)) rest
  end.

(** A vector file with a blank line, a line that is not JSON, scenario A,
    a post with a short content vector, and scenario A again. *)
Definition sample_lines : list Line :=
  [Blank; Json scenario_A; Malformed; Json short_content; Json scenario_A_again].

Definition sample_ground_truth : list GroundTruthPost :=
  [ {| gt_post_id := Some "p1"%string; ground_truth_label := Some "NTA"%string |};
    {| gt_post_id := None; ground_truth_label := Some "ESH"%string |};
    {| gt_post_id := Some "p1"%string; ground_truth_label := Some "YTA"%string |};
    {| gt_post_id := Some ""%string; ground_truth_label := Some "NAH"%string |} ].

(** ** The statistics of [analysis.py] *)

(** A cell of the data frame read from the verdict file: a string, or
    missing (NaN). *)
Definition Cell : Type := option string.

Record FrameRow : Type :=
  { frame_z3_verdict : Cell; frame_ground_truth_label : Cell }.

(** Element-wise [==] of two columns: a missing cell equals nothing,
    another missing cell included. *)
Definition cell_eqb (a b : Cell) : bool :=
  match a, b with
  | Some s, Some t => String.eqb s t
  | _, _ => false
  end.

(** [df[df['z3_verdict'] == df['ground_truth_label']]] *)
Definition matches (df : list FrameRow) : list FrameRow :=
  filter (fun r => cell_eqb (frame_z3_verdict r) (frame_ground_truth_label r)) df.

(** [df[df['z3_verdict'] != df['ground_truth_label']]] *)
Definition mismatches (df : list FrameRow) : list FrameRow :=
  filter (fun r => negb (cell_eqb (frame_z3_verdict r)
                                  (frame_ground_truth_label r))) df.

Definition labels : list string := ["NTA"; "YTA"; "ESH"; "NAH"]%string.

(** A cell of [pd.crosstab(ground_truth_label, z3_verdict)]: the number
    of rows with that pair of values; rows with a missing cell are in no
    cell. *)
Definition crosstab (df : list FrameRow) (row col : string) : nat :=
  length (filter (fun r => cell_eqb (frame_ground_truth_label r) (Some row)
                           && cell_eqb (frame_z3_verdict r) (Some col)) df).

(** [cm.reindex(index=labels, columns=labels, fill_value=0)] *)
Definition confusion_matrix (df : list FrameRow) : list (list nat) :=
  map (fun row => map (fun col => crosstab df row col) labels) labels.

Definition is_label (c : Cell) : bool :=
  existsb (fun l => cell_eqb c (Some l)) labels.

Definition diagonal (df : list FrameRow) : list nat :=
  map (fun l => crosstab df l l) labels.

(** * Properties *)

Example int_2_9 : int (PyFloat f_2_9) = Ok 2.
Proof. reflexivity. Qed.

Example int_m2_9 : int (PyFloat f_m2_9) = Ok (-2).
Proof. reflexivity. Qed.

(** [(0.7 + 0.1) * 10] is [7.999999999999999] in binary64, so its [int] is 7. *)
Example int_float_rounding :
  rbind (add (PyFloat f_0_7) (PyFloat f_0_1)) (fun s =>
  rbind (mul s (PyInt 10)) int) = Ok 7.
Proof. vm_compute. reflexivity. Qed.

Example one_eq_one : eqb_int (PyFloat f_one) 1 = true.
Proof. reflexivity. Qed.

Example all_assignments_16 : length Exhaustive.all_assignments = 16%nat.
Proof. reflexivity. Qed.

Example scenario_A_hc :
  HighConflict.solve_moral_situation_split_stream Exhaustive.solver scenario_A
  = (Ok (Some YTA),
     {| soft := [ {| formula := Bool harm; weight := 2 |};
                  {| formula := Bool intent; weight := 2 |};
                  {| formula := Not empathy; weight := 2 |};
                  {| formula := Not apology; weight := 2 |} ];
        checked := Some sat |}).
Proof. reflexivity. Qed.

Example short_content_hc :
  HighConflict.solve_moral_situation_split_stream Exhaustive.solver short_content
  = (Raise IndexError,
     {| soft := [ {| formula := Bool harm; weight := 2 |};
                  {| formula := Bool intent; weight := 2 |} ];
        checked := None |}).
Proof. reflexivity. Qed.

Example legacy_post_demo :
  Demo.solve_moral_situation_split_stream Exhaustive.solver legacy_post
  = (Ok (Some ESH),
     {| soft := [ {| formula := Not harm; weight := 2 |};
                  {| formula := Not intent; weight := 2 |};
                  {| formula := Not empathy; weight := 2 |};
                  {| formula := Not apology; weight := 2 |};
                  {| formula := Bool harm; weight := 3 |};
                  {| formula := Not intent; weight := 3 |};
                  {| formula := Bool empathy; weight := 2 |};
                  {| formula := Not apology; weight := 2 |} ];
        checked := Some sat |}).
Proof. vm_compute. reflexivity. Qed.

(** ** Numbers *)

Lemma pow2_pos (n : Z) : 0 <= n -> 0 < 2 ^ n.
Proof. intros Hn. apply Z.pow_pos_nonneg; lia. Qed.

Lemma quot_pos_bounds (m : positive) (d : Z) :
  0 < d ->
  0 <= Z.quot (Zpos m) d /\
  Z.quot (Zpos m) d * d <= Zpos m < (Z.quot (Zpos m) d + 1) * d.
Proof.
  intros Hd.
  rewrite Z.quot_div_nonneg by lia.
  pose proof (Z.div_pos (Zpos m) d ltac:(lia) Hd) as Hq.
  pose proof (Z.mul_div_le (Zpos m) d Hd) as Hle.
  pose proof (Z.mul_succ_div_gt (Zpos m) d Hd) as Hgt.
  split; [exact Hq|]. split; [lia|]. unfold Z.succ in Hgt. lia.
Qed.

Lemma int_truncates (x : num) (z : Z) : int x = Ok z -> truncation_of x z.
Proof.
  destruct x as [a | [s0 | s0 | | s m e]]; cbn [int truncation_of]; intros H;
    try discriminate; try (injection H as <-; reflexivity).
  injection H as <-. unfold trunc_finite.
  destruct (Z.leb_spec 0 e) as [He | He].
  - pose proof (pow2_pos e He) as Hp.
    assert (0 <= Zpos m * 2 ^ e) by (apply Z.mul_nonneg_nonneg; lia).
    destruct s; cbn [cond_opp]; (split; [lia|]);
      rewrite ?Z.abs_opp; rewrite Z.abs_eq; lia.
  - assert (Hd : 0 < 2 ^ (- e)) by (apply pow2_pos; lia).
    destruct (quot_pos_bounds m _ Hd) as (Hq & Hlo & Hhi).
    destruct s; cbn [cond_opp].
    + rewrite Z.quot_opp_l by lia. rewrite Z.abs_opp, Z.abs_eq by lia.
      split; [lia | split; assumption].
    + rewrite Z.abs_eq by lia. split; [lia | split; assumption].
Qed.

Lemma stream_weight_inv (a b non_biased : num) (w : Z) :
  stream_weight a b non_biased = Ok w ->
  exists s p, add a b = Ok s /\ mul s non_biased = Ok p /\
              int p = Ok w /\ truncation_of p w.
Proof.
  unfold stream_weight, rbind. intros H.
  destruct (add a b) as [s|]; [|discriminate].
  destruct (mul s non_biased) as [p|] eqn:Hp; [|discriminate].
  exists s, p. split; [reflexivity|]. split; [exact Hp|].
  split; [exact H | apply int_truncates; exact H].
Qed.

Lemma stream_weight_ints (a b c : Z) :
  stream_weight (PyInt a) (PyInt b) (PyInt c) = Ok ((a + b) * c).
Proof. reflexivity. Qed.

Lemma eqb_int_spec (c : num) :
  eqb_int c 1 = true <-> is_one c.
Proof.
  destruct c as [a | [s0 | s0 | | s m e]];
    cbn [eqb_int float_eqb_int cond_opp is_one];
    try (split; [discriminate | contradiction]).
  - apply Z.eqb_eq.
  - destruct s; cbn [cond_opp].
    + destruct (Z.leb_spec 0 e) as [He | He].
      * assert (0 <= Zpos m * 2 ^ e)
          by (apply Z.mul_nonneg_nonneg; [lia | apply Z.lt_le_incl, pow2_pos, He]).
        split; [intros H1; apply Z.eqb_eq in H1; lia | contradiction].
      * assert (0 < 2 ^ (- e)) by (apply pow2_pos; lia).
        split; [intros H1; apply Z.eqb_eq in H1; lia | contradiction].
    + destruct (0 <=? e); rewrite Z.eqb_eq; [reflexivity | lia].
Qed.

(** ** Padding *)

Lemma pad_short (q_vec : list num) :
  (length q_vec < 5)%nat ->
  pad q_vec = q_vec ++ repeat (PyInt 1) (5 - length q_vec).
Proof.
  intros H. unfold pad.
  destruct (Nat.ltb_spec (length q_vec) 5); [reflexivity | lia].
Qed.

Lemma pad_long (q_vec : list num) :
  (5 <= length q_vec)%nat -> pad q_vec = q_vec.
Proof.
  intros H. unfold pad.
  destruct (Nat.ltb_spec (length q_vec) 5); [lia | reflexivity].
Qed.

Lemma pad_length (q_vec : list num) : (5 <= length (pad q_vec))%nat.
Proof.
  destruct (Nat.lt_ge_cases (length q_vec) 5) as [H | H].
  - rewrite pad_short by assumption.
    rewrite length_app, repeat_length. lia.
  - rewrite pad_long; assumption.
Qed.

Lemma pad_idempotent (q_vec : list num) : pad (pad q_vec) = pad q_vec.
Proof. apply pad_long, pad_length. Qed.

Lemma nth_pad (q_vec : list num) (k : nat) :
  nth k (pad q_vec) (PyInt 1) = entry q_vec k.
Proof.
  unfold entry.
  destruct (Nat.lt_ge_cases (length q_vec) 5) as [H | H].
  - rewrite pad_short by assumption.
    destruct (Nat.lt_ge_cases k (length q_vec)) as [Hk | Hk].
    + apply app_nth1; assumption.
    + rewrite app_nth2 by assumption.
      rewrite (nth_overflow q_vec) by assumption.
      apply nth_repeat.
  - rewrite pad_long; auto.
Qed.

Lemma index_pad (q_vec : list num) (k : nat) :
  (k < 5)%nat -> index (pad q_vec) k = Ok (entry q_vec k).
Proof.
  intros Hk. unfold index.
  pose proof (pad_length q_vec) as Hlen.
  rewrite (nth_error_nth' (pad q_vec) (PyInt 1)) by lia.
  rewrite nth_pad. reflexivity.
Qed.

(** ** The exhaustive optimizer returns a maximum *)

Section Argmax.

Variable score : Assignment -> Z.

Lemma argmax_keeps_best (candidates : list Assignment) (best : Assignment) :
  score best <= score (Exhaustive.argmax score best candidates).
Proof.
  revert best.
  induction candidates as [| a rest IH]; intros best; cbn [Exhaustive.argmax].
  - lia.
  - destruct (Z.ltb_spec (score best) (score a)) as [Hlt | Hge].
    + specialize (IH a). lia.
    + apply IH.
Qed.

Lemma argmax_dominates (candidates : list Assignment) (best a : Assignment) :
  In a candidates ->
  score a <= score (Exhaustive.argmax score best candidates).
Proof.
  revert best.
  induction candidates as [| c rest IH]; intros best Hin;
    cbn [Exhaustive.argmax].
  - contradiction.
  - destruct Hin as [-> | Hin]; [| apply IH; exact Hin].
    destruct (Z.ltb_spec (score best) (score a)) as [Hlt | Hge].
    + apply argmax_keeps_best.
    + pose proof (argmax_keeps_best rest best). lia.
Qed.

End Argmax.

Lemma all_assignments_complete (a : Assignment) :
  In a Exhaustive.all_assignments.
Proof.
  destruct a as [[|] [|] [|] [|]]; vm_compute; tauto.
Qed.

Lemma maximize_optimal (cs : list SoftClause) :
  optimal cs (Exhaustive.maximize cs).
Proof.
  intros a. unfold Exhaustive.maximize.
  pose proof (all_assignments_complete a) as Hin.
  change Exhaustive.all_assignments
    with (Exhaustive.all_false :: tl Exhaustive.all_assignments) in Hin.
  destruct Hin as [<- | Hin].
  - apply argmax_keeps_best.
  - apply argmax_dominates. exact Hin.
Qed.

(** ** One comment *)

Lemma vote_run (c : num) (x : Proposition) (w : Z) (opt : Optimize) :
  vote c x w opt
  = (Ok tt, {| soft := soft opt ++ [clause c x w]; checked := checked opt |}).
Proof.
  unfold vote, clause, literal. destruct (eqb_int c 1); reflexivity.
Qed.

Lemma comment_body_run (comment : Comment) (opt : Optimize)
      (c0 c1 c2 c3 : num) (rest : list num) (wl we : Z) :
  content_of comment = c0 :: c1 :: c2 :: c3 :: rest ->
  logic_weight (quality_of comment) = Ok wl ->
  ethic_weight (quality_of comment) = Ok we ->
  comment_body comment opt
  = (Ok tt, {| soft := soft opt ++ votes c0 c1 c2 c3 wl we;
               checked := checked opt |}).
Proof.
  unfold content_of, quality_of, logic_weight, ethic_weight.
  intros Hc Hl He. unfold comment_body. cbv zeta.
  unfold bind, lift.
  rewrite !index_pad by lia. rewrite Hl, He, Hc.
  cbn [index nth_error]. rewrite !vote_run. cbn [soft checked].
  rewrite <- !app_assoc. reflexivity.
Qed.

Lemma content_ok_entries (comment : Comment) :
  content_ok comment ->
  exists c0 c1 c2 c3 rest, content_of comment = c0 :: c1 :: c2 :: c3 :: rest.
Proof.
  unfold content_ok, content_of.
  destruct (comment_content_vector comment) as [c_vec |]; cbn [get].
  - destruct c_vec as [| c0 [| c1 [| c2 [| c3 rest]]]]; cbn [length];
      intros H; try lia.
    now exists c0, c1, c2, c3, rest.
  - intros _. unfold default_content. now eexists _, _, _, _, _.
Qed.

Lemma comment_body_ok (comment : Comment) (opt : Optimize) :
  well_formed comment ->
  exists cs, comment_body comment opt
             = (Ok tt, {| soft := soft opt ++ cs; checked := checked opt |}).
Proof.
  intros [Hc [Hl He]].
  destruct (content_ok_entries comment Hc) as (c0 & c1 & c2 & c3 & rest & Hcv).
  destruct (logic_weight (quality_of comment)) as [wl |] eqn:Hwl;
    [| discriminate].
  destruct (ethic_weight (quality_of comment)) as [we |] eqn:Hwe;
    [| discriminate].
  exists (votes c0 c1 c2 c3 wl we).
  now apply comment_body_run with (rest := rest).
Qed.

(** Integer quality entries, however many, never make [int] fail. *)
Lemma entry_ints (l : list Z) (k : nat) :
  entry (ints l) k = PyInt (nth k l 1).
Proof.
  unfold entry, ints. change (PyInt 1) with (PyInt 1%Z).
  apply (map_nth PyInt).
Qed.

Lemma weights_ok_ints (c : option (list num)) (l : list Z) :
  weights_ok {| comment_content_vector := c;
                comment_quality_vector := Some (ints l) |}.
Proof.
  unfold weights_ok, quality_of, logic_weight, ethic_weight. cbn [get comment_quality_vector].
  rewrite !entry_ints, !stream_weight_ints. split; reflexivity.
Qed.

Lemma weights_ok_missing (c : option (list num)) :
  weights_ok {| comment_content_vector := c;
                comment_quality_vector := None |}.
Proof. split; reflexivity. Qed.

(** ** The loop and what follows it *)

Lemma for_each_ok (comments : list Comment) (opt : Optimize) :
  Forall well_formed comments ->
  exists cs, for_each comments comment_body opt
             = (Ok tt, {| soft := soft opt ++ cs; checked := checked opt |}).
Proof.
  intros Hall. revert opt.
  induction Hall as [| comment rest Hwf _ IH]; intros opt; cbn [for_each].
  - exists []. rewrite app_nil_r. destruct opt; reflexivity.
  - destruct (comment_body_ok comment opt Hwf) as [cs1 E1].
    unfold bind. rewrite E1.
    destruct (IH {| soft := soft opt ++ cs1; checked := checked opt |})
      as [cs2 E2].
    rewrite E2. cbn [soft checked]. exists (cs1 ++ cs2).
    rewrite app_assoc. reflexivity.
Qed.

Lemma hc_final_rules_total (a : Assignment) :
  HighConflict.final_rules a <> None.
Proof. destruct a as [[|] [|] [|] [|]]; discriminate. Qed.

Lemma demo_final_rules_total (a : Assignment) :
  Demo.final_rules a <> None.
Proof. destruct a as [[|] [|] [|] [|]]; discriminate. Qed.

Lemma hc_solve_nonempty (z3 : Solver) (post_data : Post)
      (c : Comment) (cs : list Comment) :
  get (processed_comments post_data) [] = c :: cs ->
  HighConflict.solve_moral_situation_split_stream z3 post_data
  = after_loop None HighConflict.final_rules z3
      (for_each (c :: cs) comment_body new_Optimize).
Proof.
  intros H. unfold HighConflict.solve_moral_situation_split_stream.
  rewrite H. unfold bind at 1, after_loop.
  destruct (for_each (c :: cs) comment_body new_Optimize) as [[[] | e] opt];
    [| reflexivity].
  unfold bind, opt_check, opt_model, ret. cbn [soft].
  destruct (check z3 (soft opt)); reflexivity.
Qed.

Lemma demo_solve_nonempty (z3 : Solver) (post_data : Post)
      (c : Comment) (cs : list Comment) :
  get (processed_comments post_data) [] = c :: cs ->
  Demo.solve_moral_situation_split_stream z3 post_data
  = after_loop (Some Unclear) Demo.final_rules z3
      (for_each (c :: cs) comment_body new_Optimize).
Proof.
  intros H. unfold Demo.solve_moral_situation_split_stream.
  rewrite H. unfold bind at 1, after_loop.
  destruct (for_each (c :: cs) comment_body new_Optimize) as [[[] | e] opt];
    [| reflexivity].
  unfold bind, opt_check, opt_model, ret. cbn [soft].
  destruct (check z3 (soft opt)); cbn [is_sat soft]; try reflexivity.
  pose proof (demo_final_rules_total (model z3 (soft opt))) as Hne.
  destruct (Demo.final_rules (model z3 (soft opt))); [reflexivity | congruence].
Qed.

Lemma literal_proposition (c : num) (x : Proposition) :
  proposition (literal c x) = x.
Proof. unfold literal. destruct (eqb_int c 1); reflexivity. Qed.

Lemma literal_polarity (c : num) (x : Proposition) :
  polarity (literal c x) = true <-> is_one c.
Proof.
  rewrite <- eqb_int_spec. unfold literal.
  destruct (eqb_int c 1); cbn [polarity]; split; congruence.
Qed.

Lemma comment_body_defaults (comment : Comment) :
  comment_body (fill_defaults comment) = comment_body comment.
Proof.
  unfold comment_body, fill_defaults, content_of, quality_of.
  cbn [get comment_content_vector comment_quality_vector].
  rewrite pad_idempotent. reflexivity.
Qed.

Lemma for_each_defaults (comments : list Comment) :
  for_each (map fill_defaults comments) comment_body
  = for_each comments comment_body.
Proof.
  induction comments as [| c cs IH]; cbn [map for_each]; [reflexivity |].
  rewrite comment_body_defaults, IH. reflexivity.
Qed.

Lemma hc_solve_defaults (z3 : Solver) (post_data : Post) :
  HighConflict.solve_moral_situation_split_stream z3 (with_defaults post_data)
  = HighConflict.solve_moral_situation_split_stream z3 post_data.
Proof.
  unfold HighConflict.solve_moral_situation_split_stream, with_defaults.
  cbn [processed_comments get].
  destruct (get (processed_comments post_data) []) as [| c cs];
    [reflexivity |].
  rewrite for_each_defaults. reflexivity.
Qed.

Lemma demo_solve_defaults (z3 : Solver) (post_data : Post) :
  Demo.solve_moral_situation_split_stream z3 (with_defaults post_data)
  = Demo.solve_moral_situation_split_stream z3 post_data.
Proof.
  unfold Demo.solve_moral_situation_split_stream, with_defaults.
  cbn [processed_comments get].
  destruct (get (processed_comments post_data) []) as [| c cs];
    [reflexivity |].
  rewrite for_each_defaults. reflexivity.
Qed.

(** Only the first five quality entries are read. *)
Lemma entry_firstn (q_vec : list num) (k : nat) :
  (k < 5)%nat -> entry (firstn 5 q_vec) k = entry q_vec k.
Proof.
  intros Hk. unfold entry.
  rewrite <- (firstn_skipn 5 q_vec) at 2.
  destruct (Nat.lt_ge_cases k (length (firstn 5 q_vec))) as [H | H].
  - rewrite app_nth1 by assumption. reflexivity.
  - rewrite (nth_overflow (firstn 5 q_vec)) by assumption.
    rewrite length_firstn in H.
    assert (Hlen : (length q_vec <= k)%nat) by lia.
    rewrite <- (firstn_skipn 5 q_vec) in Hlen.
    symmetry. apply nth_overflow. exact Hlen.
Qed.

Lemma comment_body_entries (c : option (list num)) (q q' : list num) :
  (forall k, (k < 5)%nat -> entry q k = entry q' k) ->
  comment_body {| comment_content_vector := c;
                  comment_quality_vector := Some q |}
  = comment_body {| comment_content_vector := c;
                    comment_quality_vector := Some q' |}.
Proof.
  intros H. unfold comment_body.
  cbn [get comment_content_vector comment_quality_vector]. cbv zeta.
  rewrite !index_pad by lia.
  rewrite (H 0%nat), (H 1%nat), (H 2%nat), (H 3%nat), (H 4%nat) by lia.
  reflexivity.
Qed.

(** * Properties of the specification *)

(** C1. For a post with at least one comment whose loop runs to its end,
    the assignment the exhaustive optimizer hands out has a total satisfied
    soft-clause weight at least that of every assignment over
    harm, intent, empathy and apology, and both variants read their verdict
    off that assignment. *)
Theorem optimizer_maximal (post_data : Post) (c : Comment)
        (cs : list Comment) (opt : Optimize) :
  get (processed_comments post_data) [] = c :: cs ->
  for_each (c :: cs) comment_body new_Optimize = (Ok tt, opt) ->
  let a := model Exhaustive.solver (soft opt) in
  (forall a', satisfied_weight (soft opt) a' <= satisfied_weight (soft opt) a)
  /\ HighConflict.solve_moral_situation_split_stream Exhaustive.solver post_data
     = (Ok (HighConflict.final_rules a),
        {| soft := soft opt; checked := Some sat |})
  /\ Demo.solve_moral_situation_split_stream Exhaustive.solver post_data
     = (Ok (Demo.final_rules a),
        {| soft := soft opt; checked := Some sat |}).
Proof.
  intros Hc Hloop a. split; [| split].
  - apply maximize_optimal.
  - rewrite (hc_solve_nonempty _ _ c cs Hc), Hloop. reflexivity.
  - rewrite (demo_solve_nonempty _ _ c cs Hc), Hloop. reflexivity.
Qed.

Lemma optimizer_maximal_witness :
  let cs := votes (PyInt 1) (PyInt 1) (PyInt 0) (PyInt 0) 2 2 in
  (forall a', satisfied_weight cs a' <= satisfied_weight cs TTFF)
  /\ HighConflict.solve_moral_situation_split_stream Exhaustive.solver scenario_A
     = (Ok (Some YTA), {| soft := cs; checked := Some sat |})
  /\ Demo.solve_moral_situation_split_stream Exhaustive.solver scenario_A
     = (Ok (Some YTA), {| soft := cs; checked := Some sat |}).
Proof.
  exact (optimizer_maximal scenario_A
           (comment_of [1; 1; 0; 0] [1; 1; 1; 1; 1]) []
           {| soft := votes (PyInt 1) (PyInt 1) (PyInt 0) (PyInt 0) 2 2;
              checked := None |}
           eq_refl eq_refl).
Defined.

(** C2. A comment with four content entries whose two stream weights
    [wl = int((justification + deliberative) * non_biased)] and
    [we = int((ethic + fairness) * non_biased)] are defined adds exactly four
    soft clauses: harm and intent with weight [wl], empathy and apology with
    weight [we], whatever the polarities voted for; each weight is the
    product with its fractional part dropped. *)
Theorem comment_emits_four_clauses (comment : Comment) (opt : Optimize)
        (c0 c1 c2 c3 : num) (rest : list num) (wl we : Z) :
  content_of comment = c0 :: c1 :: c2 :: c3 :: rest ->
  logic_weight (quality_of comment) = Ok wl ->
  ethic_weight (quality_of comment) = Ok we ->
  let q := quality_of comment in
  comment_body comment opt
  = (Ok tt,
     {| soft := soft opt ++
                [ {| formula := literal c0 harm; weight := wl |};
                  {| formula := literal c1 intent; weight := wl |};
                  {| formula := literal c2 empathy; weight := we |};
                  {| formula := literal c3 apology; weight := we |} ];
        checked := checked opt |})
  /\ (exists s p, add (entry q 0) (entry q 2) = Ok s /\
                  mul s (entry q 4) = Ok p /\
                  int p = Ok wl /\ truncation_of p wl)
  /\ (exists s p, add (entry q 1) (entry q 3) = Ok s /\
                  mul s (entry q 4) = Ok p /\
                  int p = Ok we /\ truncation_of p we).
Proof.
  intros Hc Hl He q. split; [| split].
  - exact (comment_body_run comment opt c0 c1 c2 c3 rest wl we Hc Hl He).
  - apply stream_weight_inv. exact Hl.
  - apply stream_weight_inv. exact He.
Qed.

Lemma comment_emits_four_clauses_witness :
  comment_body float_comment new_Optimize
  = (Ok tt,
     {| soft := [] ++
                [ {| formula := literal (PyInt 1) harm; weight := 7 |};
                  {| formula := literal (PyInt 0) intent; weight := 7 |};
                  {| formula := literal (PyInt 2) empathy; weight := 20 |};
                  {| formula := literal (PyFloat f_half) apology;
                     weight := 20 |} ];
        checked := None |})
  /\ (exists s p, add (PyFloat f_0_7) (PyFloat f_0_1) = Ok s /\
                  mul s (PyInt 10) = Ok p /\
                  int p = Ok 7 /\ truncation_of p 7)
  /\ (exists s p, add (PyInt 1) (PyInt 1) = Ok s /\
                  mul s (PyInt 10) = Ok p /\
                  int p = Ok 20 /\ truncation_of p 20).
Proof.
  apply (comment_emits_four_clauses float_comment new_Optimize
           (PyInt 1) (PyInt 0) (PyInt 2) (PyFloat f_half) [] 7 20).
  - reflexivity.
  - vm_compute. reflexivity.
  - vm_compute. reflexivity.
Defined.

(** C3. A post whose comment sequence is empty, or that has no
    [processed_comments] field at all, gets "No Data" in both variants,
    whatever its other fields and whatever the optimizer would answer: the
    [Optimize] object is left as created, with no soft clause and no
    [check()] performed. *)
Theorem no_comments_no_data (z3 : Solver) (post_data : Post) :
  processed_comments post_data = None \/ processed_comments post_data = Some [] ->
  HighConflict.solve_moral_situation_split_stream z3 post_data
  = (Ok (Some NoData), {| soft := []; checked := None |})
  /\ Demo.solve_moral_situation_split_stream z3 post_data
     = (Ok (Some NoData), {| soft := []; checked := None |}).
Proof.
  unfold HighConflict.solve_moral_situation_split_stream,
    Demo.solve_moral_situation_split_stream.
  intros [H | H]; rewrite H; split; reflexivity.
Qed.

Lemma no_comments_no_data_witness :
  (HighConflict.solve_moral_situation_split_stream undecided missing_post
   = (Ok (Some NoData), {| soft := []; checked := None |})
   /\ Demo.solve_moral_situation_split_stream undecided missing_post
      = (Ok (Some NoData), {| soft := []; checked := None |}))
  /\ (HighConflict.solve_moral_situation_split_stream Exhaustive.solver empty_post
      = (Ok (Some NoData), {| soft := []; checked := None |})
      /\ Demo.solve_moral_situation_split_stream Exhaustive.solver empty_post
         = (Ok (Some NoData), {| soft := []; checked := None |})).
Proof.
  split.
  - apply (no_comments_no_data undecided missing_post). left. reflexivity.
  - apply (no_comments_no_data Exhaustive.solver empty_post). right. reflexivity.
Defined.

(** C4, as stated, fails: a content vector with fewer than four entries is
    not defaulted or padded, and reading its missing entry raises
    [IndexError] in both variants. *)
Lemma short_content_raises :
  fst (HighConflict.solve_moral_situation_split_stream
         Exhaustive.solver short_content) = Raise IndexError
  /\ fst (Demo.solve_moral_situation_split_stream
            Exhaustive.solver short_content) = Raise IndexError.
Proof. split; reflexivity. Qed.

(** C4, amended. When every comment has a content vector that is missing
    or has at least four entries, and a quality vector that is missing, short
    or full with entries whose stream weights are defined (integers always
    are), no error is raised: the run is the run on the post with the
    defaults written out (content [0,0,0,0] when missing, quality
    [1,1,1,1,1] when missing, short quality followed by 1s), and it ends
    with a value. *)
Theorem malformed_shapes_recovered (z3 : Solver) (post_data : Post) :
  Forall well_formed (get (processed_comments post_data) []) ->
  (exists v opt,
      HighConflict.solve_moral_situation_split_stream z3 post_data = (Ok v, opt)
      /\ HighConflict.solve_moral_situation_split_stream z3
           (with_defaults post_data) = (Ok v, opt))
  /\ (exists v opt,
         Demo.solve_moral_situation_split_stream z3 post_data
         = (Ok (Some v), opt)
         /\ Demo.solve_moral_situation_split_stream z3
              (with_defaults post_data) = (Ok (Some v), opt)).
Proof.
  intros Hall.
  rewrite hc_solve_defaults, demo_solve_defaults.
  destruct (get (processed_comments post_data) []) as [| c cs] eqn:Hc.
  - unfold HighConflict.solve_moral_situation_split_stream,
      Demo.solve_moral_situation_split_stream. rewrite Hc.
    split; [exists (Some NoData) | exists NoData]; eexists; split; reflexivity.
  - rewrite (hc_solve_nonempty z3 post_data c cs Hc).
    rewrite (demo_solve_nonempty z3 post_data c cs Hc).
    destruct (for_each_ok (c :: cs) new_Optimize Hall) as [cls E].
    rewrite E. unfold after_loop. cbn [soft].
    generalize (soft new_Optimize ++ cls). intros l.
    split.
    + eexists. eexists. split; reflexivity.
    + destruct (is_sat (check z3 l)).
      * pose proof (demo_final_rules_total (model z3 l)) as Hne.
        destruct (Demo.final_rules (model z3 l)) as [v |];
          [| congruence].
        exists v. eexists. split; reflexivity.
      * exists Unclear. eexists. split; reflexivity.
Qed.

Lemma legacy_post_well_formed :
  Forall well_formed (get (processed_comments legacy_post) []).
Proof.
  repeat constructor; vm_compute; try reflexivity; try lia; trivial.
Qed.

Lemma malformed_shapes_recovered_witness :
  (exists v opt,
      HighConflict.solve_moral_situation_split_stream Exhaustive.solver
        legacy_post = (Ok v, opt)
      /\ HighConflict.solve_moral_situation_split_stream Exhaustive.solver
           (with_defaults legacy_post) = (Ok v, opt))
  /\ (exists v opt,
         Demo.solve_moral_situation_split_stream Exhaustive.solver legacy_post
         = (Ok (Some v), opt)
         /\ Demo.solve_moral_situation_split_stream Exhaustive.solver
              (with_defaults legacy_post) = (Ok (Some v), opt)).
Proof.
  apply (malformed_shapes_recovered Exhaustive.solver legacy_post).
  exact legacy_post_well_formed.
Defined.

(** When the loop has run and [check()] does not answer [sat],
    [demo.py] returns "Unclear" and [high_conflict_z3.py] returns nothing. *)
Lemma unresolved_outcomes (z3 : Solver) (post_data : Post) (c : Comment)
      (cs : list Comment) (opt : Optimize) :
  get (processed_comments post_data) [] = c :: cs ->
  for_each (c :: cs) comment_body new_Optimize = (Ok tt, opt) ->
  is_sat (check z3 (soft opt)) = false ->
  fst (Demo.solve_moral_situation_split_stream z3 post_data)
  = Ok (Some Unclear)
  /\ fst (HighConflict.solve_moral_situation_split_stream z3 post_data)
     = Ok None.
Proof.
  intros Hc Hloop Hns.
  rewrite (hc_solve_nonempty z3 post_data c cs Hc).
  rewrite (demo_solve_nonempty z3 post_data c cs Hc).
  rewrite Hloop. unfold after_loop. rewrite Hns. split; reflexivity.
Qed.

(** C5. On scenario A with a [check()] that answers [unknown],
    [demo.py] returns "Unclear" whereas [high_conflict_z3.py] reaches its
    end without a [return] and hands back [None]. *)
Theorem unresolved_high_conflict_returns_nothing :
  fst (HighConflict.solve_moral_situation_split_stream undecided scenario_A)
  = Ok None
  /\ fst (Demo.solve_moral_situation_split_stream undecided scenario_A)
     = Ok (Some Unclear).
Proof. split; reflexivity. Qed.

(** C6. On every resolved assignment the two decision trees agree on
    "YTA" (harm and intent) and on "ESH" (harm without intent, empathy or
    apology), and otherwise differ exactly by the exchange of "NTA" and
    "NAH": harm absent gives "NTA" in [high_conflict_z3.py] and "NAH" in
    [demo.py]; harm without intent but with empathy or apology gives "NAH"
    and "NTA". *)
Theorem decision_trees_swap_labels :
  (forall e ap,
      let a := {| is_harm := true; is_intent := true;
                  is_empathy := e; is_apology := ap |} in
      HighConflict.final_rules a = Some YTA /\ Demo.final_rules a = Some YTA)
  /\ (let a := {| is_harm := true; is_intent := false;
                  is_empathy := false; is_apology := false |} in
      HighConflict.final_rules a = Some ESH /\ Demo.final_rules a = Some ESH)
  /\ (forall i e ap,
         let a := {| is_harm := false; is_intent := i;
                     is_empathy := e; is_apology := ap |} in
         HighConflict.final_rules a = Some NTA
         /\ Demo.final_rules a = Some NAH)
  /\ (forall e ap,
         let a := {| is_harm := true; is_intent := false;
                     is_empathy := e; is_apology := ap |} in
         HighConflict.final_rules a = Some (if e || ap then NAH else ESH)
         /\ Demo.final_rules a = Some (if e || ap then NTA else ESH))
  /\ (forall a,
         Demo.final_rules a = option_map swap_labels (HighConflict.final_rules a)
         /\ (HighConflict.final_rules a = Demo.final_rules a <->
             HighConflict.final_rules a = Some YTA
             \/ HighConflict.final_rules a = Some ESH)).
Proof.
  split; [| split; [| split; [| split]]].
  - intros [|] [|]; split; reflexivity.
  - split; reflexivity.
  - intros [|] [|] [|]; split; reflexivity.
  - intros [|] [|]; split; reflexivity.
  - intros a. destruct a as [[|] [|] [|] [|]];
      (split; [reflexivity |]); cbn;
      (split;
       [ intros H; first [discriminate | left; reflexivity | right; reflexivity]
       | intros [H | H]; first [reflexivity | discriminate] ]).
Qed.

(** C7. The five quality entries the weights are computed from are the
    first five of the padded vector: with them, a comment adds its harm and
    intent clauses with weight [int((j + d) * nb)] and its empathy and
    apology clauses with weight [int((e + f) * nb)]. A quality vector with
    fewer than five entries is padded to itself followed by 1s, five entries
    in all; one with five or more is used unchanged, its first five entries
    being the ones read, and dropping the entries after the fifth changes
    nothing of what the comment does. *)
Theorem quality_padding (c_vec : option (list num)) (q_vec : list num) :
  (exists j e d f nb,
      firstn 5 (pad q_vec) = [j; e; d; f; nb]
      /\ forall c0 c1 c2 c3 rest opt wl we,
          get c_vec default_content = c0 :: c1 :: c2 :: c3 :: rest ->
          stream_weight j d nb = Ok wl ->
          stream_weight e f nb = Ok we ->
          comment_body {| comment_content_vector := c_vec;
                          comment_quality_vector := Some q_vec |} opt
          = (Ok tt,
             {| soft := soft opt ++
                        [ {| formula := literal c0 harm; weight := wl |};
                          {| formula := literal c1 intent; weight := wl |};
                          {| formula := literal c2 empathy; weight := we |};
                          {| formula := literal c3 apology; weight := we |} ];
                checked := checked opt |}))
  /\ ((length q_vec < 5)%nat ->
      length (pad q_vec) = 5%nat
      /\ pad q_vec = q_vec ++ repeat (PyInt 1) (5 - length q_vec)
      /\ firstn 5 (pad q_vec) = q_vec ++ repeat (PyInt 1) (5 - length q_vec))
  /\ ((5 <= length q_vec)%nat ->
      pad q_vec = q_vec
      /\ firstn 5 (pad q_vec) = firstn 5 q_vec
      /\ (forall k, (k < 5)%nat -> index (pad q_vec) k = index q_vec k)
      /\ comment_body {| comment_content_vector := c_vec;
                         comment_quality_vector := Some q_vec |}
         = comment_body {| comment_content_vector := c_vec;
                           comment_quality_vector := Some (firstn 5 q_vec) |}).
Proof.
  split; [| split].
  - pose proof (pad_length q_vec) as Hlen.
    pose proof (nth_pad q_vec) as Hnth.
    destruct (pad q_vec) as [| j [| e [| d [| f [| nb tail]]]]];
      cbn [length] in Hlen; try lia.
    exists j, e, d, f, nb. split; [reflexivity |].
    intros c0 c1 c2 c3 rest opt wl we Hc Hl He.
    apply (comment_body_run _ opt c0 c1 c2 c3 rest wl we).
    + exact Hc.
    + unfold logic_weight, quality_of. cbn [get comment_quality_vector].
      rewrite <- (Hnth 0%nat), <- (Hnth 2%nat), <- (Hnth 4%nat). exact Hl.
    + unfold ethic_weight, quality_of. cbn [get comment_quality_vector].
      rewrite <- (Hnth 1%nat), <- (Hnth 3%nat), <- (Hnth 4%nat). exact He.
  - intros H.
    assert (Hl : length (pad q_vec) = 5%nat).
    { rewrite pad_short by assumption.
      rewrite length_app, repeat_length. lia. }
    split; [exact Hl |]. split; [apply pad_short; assumption |].
    rewrite <- (pad_short q_vec H). apply firstn_all2. lia.
  - intros H. split; [| split; [| split]].
    + apply pad_long. assumption.
    + rewrite pad_long by assumption. reflexivity.
    + intros k _. rewrite pad_long by assumption. reflexivity.
    + apply comment_body_entries. intros k Hk.
      symmetry. apply entry_firstn. exact Hk.
Qed.

(** Quality [2.9, 3] is used as [2.9, 3, 1, 1, 1]: the weights are
    [int((2.9 + 1) * 1) = 3] and [int((3 + 1) * 1) = 4]. *)
Lemma quality_padding_witness :
  (firstn 5 (pad [PyFloat f_2_9; PyInt 3])
   = [PyFloat f_2_9; PyInt 3; PyInt 1; PyInt 1; PyInt 1]
   /\ comment_body {| comment_content_vector := Some (ints [1; 1; 0; 0]);
                      comment_quality_vector :=
                        Some [PyFloat f_2_9; PyInt 3] |} new_Optimize
      = (Ok tt,
         {| soft := [] ++
                    [ {| formula := literal (PyInt 1) harm; weight := 3 |};
                      {| formula := literal (PyInt 1) intent; weight := 3 |};
                      {| formula := literal (PyInt 0) empathy; weight := 4 |};
                      {| formula := literal (PyInt 0) apology; weight := 4 |} ];
            checked := None |}))
  /\ (length (pad [PyFloat f_2_9; PyInt 3]) = 5%nat
      /\ pad [PyFloat f_2_9; PyInt 3]
         = [PyFloat f_2_9; PyInt 3] ++ repeat (PyInt 1) (5 - 2)
      /\ firstn 5 (pad [PyFloat f_2_9; PyInt 3])
         = [PyFloat f_2_9; PyInt 3] ++ repeat (PyInt 1) (5 - 2))
  /\ (pad (ints [1; 2; 3; 4; 5; 6]) = ints [1; 2; 3; 4; 5; 6]
      /\ firstn 5 (pad (ints [1; 2; 3; 4; 5; 6]))
         = firstn 5 (ints [1; 2; 3; 4; 5; 6])
      /\ (forall k, (k < 5)%nat ->
                    index (pad (ints [1; 2; 3; 4; 5; 6])) k
                    = index (ints [1; 2; 3; 4; 5; 6]) k)
      /\ comment_body (comment_of [1; 1; 0; 0] [1; 2; 3; 4; 5; 6])
         = comment_body (comment_of [1; 1; 0; 0] [1; 2; 3; 4; 5])).
Proof.
  split; [| split].
  - destruct (proj1 (quality_padding (Some (ints [1; 1; 0; 0]))
                                     [PyFloat f_2_9; PyInt 3]))
      as (j & e & d & f & nb & Hfirst & Hbody).
    split; [reflexivity |].
    injection Hfirst as <- <- <- <- <-.
    apply (Hbody (PyInt 1) (PyInt 1) (PyInt 0) (PyInt 0) []).
    + reflexivity.
    + vm_compute. reflexivity.
    + vm_compute. reflexivity.
  - apply (proj1 (proj2 (quality_padding None [PyFloat f_2_9; PyInt 3]))).
    cbn [length]. lia.
  - apply (proj2 (proj2 (quality_padding (Some (ints [1; 1; 0; 0]))
                                         (ints [1; 2; 3; 4; 5; 6])))).
    cbn [length ints map]. lia.
Defined.

Lemma scenario_A_loop :
  for_each (get (processed_comments scenario_A) []) comment_body new_Optimize
  = (Ok tt, {| soft := scenario_A_clauses; checked := None |}).
Proof. reflexivity. Qed.

Lemma scenario_A_unique (a : Assignment) :
  optimal scenario_A_clauses a <-> a = TTFF.
Proof.
  split.
  - intros H. specialize (H TTFF).
    destruct a as [[|] [|] [|] [|]]; cbn in H;
      first [reflexivity | exfalso; lia].
  - intros -> a'. destruct a' as [[|] [|] [|] [|]]; cbn; lia.
Qed.

(** C8. Scenario A: one comment with content [1,1,0,0] and quality
    [1,1,1,1,1] has logic and ethic weight 2; its four clauses favour
    harm, intent, no empathy and no apology with weight 2 each, 8 in all;
    the one optimal assignment makes harm and intent true, and every
    optimizer that answers with an optimal assignment, the exhaustive one
    included, leads both variants to "YTA". *)
Theorem scenario_A_is_YTA :
  logic_weight (ints [1; 1; 1; 1; 1]) = Ok 2
  /\ ethic_weight (ints [1; 1; 1; 1; 1]) = Ok 2
  /\ for_each (get (processed_comments scenario_A) []) comment_body new_Optimize
     = (Ok tt, {| soft := scenario_A_clauses; checked := None |})
  /\ satisfied_weight scenario_A_clauses TTFF = 8
  /\ (forall a, optimal scenario_A_clauses a <-> a = TTFF)
  /\ (forall z3,
         check z3 scenario_A_clauses = sat ->
         optimal scenario_A_clauses (model z3 scenario_A_clauses) ->
         fst (HighConflict.solve_moral_situation_split_stream z3 scenario_A)
         = Ok (Some YTA)
         /\ fst (Demo.solve_moral_situation_split_stream z3 scenario_A)
            = Ok (Some YTA))
  /\ fst (HighConflict.solve_moral_situation_split_stream
            Exhaustive.solver scenario_A) = Ok (Some YTA)
  /\ fst (Demo.solve_moral_situation_split_stream
            Exhaustive.solver scenario_A) = Ok (Some YTA).
Proof.
  repeat (split; [reflexivity |]).
  split; [exact scenario_A_unique |].
  split; [| split; reflexivity].
  intros z3 Hsat Hopt.
  apply scenario_A_unique in Hopt.
  rewrite (hc_solve_nonempty z3 scenario_A _ [] eq_refl).
  rewrite (demo_solve_nonempty z3 scenario_A _ [] eq_refl).
  change (for_each [comment_of [1; 1; 0; 0] [1; 1; 1; 1; 1]]
            comment_body new_Optimize)
    with (for_each (get (processed_comments scenario_A) [])
            comment_body new_Optimize).
  rewrite scenario_A_loop. unfold after_loop. cbn [soft fst].
  rewrite Hsat, Hopt. split; reflexivity.
Qed.

Lemma scenario_A_is_YTA_witness :
  fst (HighConflict.solve_moral_situation_split_stream
         Exhaustive.solver scenario_A) = Ok (Some YTA)
  /\ fst (Demo.solve_moral_situation_split_stream
            Exhaustive.solver scenario_A) = Ok (Some YTA).
Proof.
  apply (proj1 (proj2 (proj2 (proj2 (proj2 (proj2 scenario_A_is_YTA)))))
           Exhaustive.solver).
  - reflexivity.
  - apply maximize_optimal.
Defined.

(** C10. Each of the four clauses a comment adds is on its own
    proposition, and is the positive one exactly when the matching content
    entry is the number 1; any other entry gives the negated proposition and
    raises nothing. *)
Theorem polarity_positive_iff_one (comment : Comment) (opt : Optimize)
        (c0 c1 c2 c3 : num) (rest : list num) (wl we : Z) :
  content_of comment = c0 :: c1 :: c2 :: c3 :: rest ->
  logic_weight (quality_of comment) = Ok wl ->
  ethic_weight (quality_of comment) = Ok we ->
  exists f0 f1 f2 f3,
    comment_body comment opt
    = (Ok tt,
       {| soft := soft opt ++
                  [ {| formula := f0; weight := wl |};
                    {| formula := f1; weight := wl |};
                    {| formula := f2; weight := we |};
                    {| formula := f3; weight := we |} ];
          checked := checked opt |})
    /\ (proposition f0 = harm /\ (polarity f0 = true <-> is_one c0))
    /\ (proposition f1 = intent /\ (polarity f1 = true <-> is_one c1))
    /\ (proposition f2 = empathy /\ (polarity f2 = true <-> is_one c2))
    /\ (proposition f3 = apology /\ (polarity f3 = true <-> is_one c3)).
Proof.
  intros Hc Hl He.
  exists (literal c0 harm), (literal c1 intent),
    (literal c2 empathy), (literal c3 apology).
  split.
  - exact (comment_body_run comment opt c0 c1 c2 c3 rest wl we Hc Hl He).
  - repeat split;
      first [apply literal_proposition | apply literal_polarity].
Qed.

Lemma polarity_positive_iff_one_witness :
  exists f0 f1 f2 f3,
    comment_body out_of_domain new_Optimize
    = (Ok tt,
       {| soft := [] ++
                  [ {| formula := f0; weight := 2 |};
                    {| formula := f1; weight := 2 |};
                    {| formula := f2; weight := 2 |};
                    {| formula := f3; weight := 2 |} ];
          checked := None |})
    /\ (proposition f0 = harm /\ (polarity f0 = true <-> is_one (PyInt 0)))
    /\ (proposition f1 = intent /\ (polarity f1 = true <-> is_one (PyInt 2)))
    /\ (proposition f2 = empathy
        /\ (polarity f2 = true <-> is_one (PyInt (-1))))
    /\ (proposition f3 = apology
        /\ (polarity f3 = true <-> is_one (PyFloat f_half))).
Proof.
  apply (polarity_positive_iff_one out_of_domain new_Optimize
           (PyInt 0) (PyInt 2) (PyInt (-1)) (PyFloat f_half) [] 2 2);
    reflexivity.
Defined.

Example out_of_domain_run :
  comment_body out_of_domain new_Optimize
  = (Ok tt,
     {| soft := [ {| formula := Not harm; weight := 2 |};
                  {| formula := Not intent; weight := 2 |};
                  {| formula := Not empathy; weight := 2 |};
                  {| formula := Not apology; weight := 2 |} ];
        checked := None |}).
Proof. reflexivity. Qed.

Example float_one_votes_positive (x : Proposition) :
  literal (PyFloat f_one) x = Bool x /\ literal (PyInt 1) x = Bool x.
Proof. split; reflexivity. Qed.

(** * Further properties of the function *)

(** ** The loop body, case by case *)

Lemma same_optimize (opt : Optimize) :
  {| soft := soft opt ++ []; checked := checked opt |} = opt.
Proof. destruct opt. cbn [soft checked]. rewrite app_nil_r. reflexivity. Qed.

Lemma comment_body_cases (comment : Comment) (opt : Optimize) :
  comment_body comment opt
  = (comment_status comment,
     {| soft := soft opt ++ comment_clauses comment;
        checked := checked opt |}).
Proof.
  unfold comment_body, comment_status, comment_clauses,
    logic_weight, ethic_weight.
  fold (content_of comment). fold (quality_of comment). cbv zeta.
  unfold bind, lift. rewrite !index_pad by lia.
  destruct (stream_weight (entry (quality_of comment) 0)
              (entry (quality_of comment) 2) (entry (quality_of comment) 4))
    as [wl | e1]; [| rewrite same_optimize; reflexivity].
  destruct (stream_weight (entry (quality_of comment) 1)
              (entry (quality_of comment) 3) (entry (quality_of comment) 4))
    as [we | e2]; [| rewrite same_optimize; reflexivity].
  destruct (content_of comment) as [| c0 [| c1 [| c2 [| c3 rest]]]];
    cbn [index nth_error length Nat.leb partial_votes combine ballot map
           fst snd];
    rewrite ?vote_run; cbn [soft checked]; rewrite <- ?app_assoc;
    rewrite ?combine_nil; rewrite ?same_optimize; reflexivity.
Qed.

Lemma comment_status_ok (comment : Comment) :
  comment_status comment = Ok tt <-> well_formed comment.
Proof.
  unfold comment_status, well_formed, weights_ok, content_ok, content_of.
  destruct (logic_weight (quality_of comment)) as [wl | e1];
    destruct (ethic_weight (quality_of comment)) as [we | e2];
    cbn [is_ok];
    try (split; [discriminate | intros (_ & H1 & H2); discriminate]).
  destruct (comment_content_vector comment) as [c_vec |]; cbn [get].
  - destruct (Nat.leb_spec 4 (length c_vec)).
    + split; auto.
    + split; [discriminate | intros (H1 & _); lia].
  - split; auto.
Qed.

Lemma comment_clauses_length (comment : Comment) :
  well_formed comment -> length (comment_clauses comment) = 4%nat.
Proof.
  intros [Hc [Hl He]].
  destruct (content_ok_entries comment Hc) as (c0 & c1 & c2 & c3 & rest & E).
  unfold comment_clauses.
  destruct (logic_weight (quality_of comment)); [| discriminate].
  destruct (ethic_weight (quality_of comment)); [| discriminate].
  rewrite E. unfold partial_votes, ballot. cbn [combine].
  rewrite combine_nil. reflexivity.
Qed.

(** ** The loop as a whole *)

Lemma for_each_cases (comments : list Comment) (opt : Optimize) :
  for_each comments comment_body opt
  = (loop_status comments,
     {| soft := soft opt ++ flat_map comment_clauses (processed comments);
        checked := checked opt |}).
Proof.
  revert opt. induction comments as [| c rest IH]; intros opt;
    cbn [for_each loop_status processed flat_map].
  - unfold ret. rewrite same_optimize. reflexivity.
  - unfold bind. rewrite comment_body_cases.
    destruct (comment_status c) as [[] | e]; cbn [flat_map].
    + rewrite IH. cbn [soft checked]. rewrite <- app_assoc. reflexivity.
    + rewrite app_nil_r. reflexivity.
Qed.

Lemma loop_status_ok (comments : list Comment) :
  loop_status comments = Ok tt <-> Forall well_formed comments.
Proof.
  induction comments as [| c rest IH]; cbn [loop_status].
  - split; auto.
  - destruct (comment_status c) as [[] | e] eqn:E.
    + rewrite IH. split.
      * intros H. constructor; [apply comment_status_ok; exact E | exact H].
      * intros H. inversion H; assumption.
    + split; [discriminate |].
      intros H. inversion H as [| ? ? Hwf _]; subst.
      apply comment_status_ok in Hwf. congruence.
Qed.

Lemma processed_all (comments : list Comment) :
  Forall well_formed comments -> processed comments = comments.
Proof.
  induction 1 as [| c rest Hwf _ IH]; cbn [processed]; [reflexivity |].
  apply comment_status_ok in Hwf. rewrite Hwf, IH. reflexivity.
Qed.

(** ** Either variant, case by case *)

Lemma hc_solve_cases (z3 : Solver) (post_data : Post) :
  HighConflict.solve_moral_situation_split_stream z3 post_data
  = match get (processed_comments post_data) [] with
    | [] => (Ok (Some NoData), new_Optimize)
    | c :: cs =>
        after_loop None HighConflict.final_rules z3
          (loop_status (c :: cs),
           {| soft := flat_map comment_clauses (processed (c :: cs));
              checked := None |})
    end.
Proof.
  destruct (get (processed_comments post_data) []) as [| c cs] eqn:E.
  - unfold HighConflict.solve_moral_situation_split_stream.
    rewrite E. reflexivity.
  - rewrite (hc_solve_nonempty z3 post_data c cs E), for_each_cases.
    reflexivity.
Qed.

Lemma demo_solve_cases (z3 : Solver) (post_data : Post) :
  Demo.solve_moral_situation_split_stream z3 post_data
  = match get (processed_comments post_data) [] with
    | [] => (Ok (Some NoData), new_Optimize)
    | c :: cs =>
        after_loop (Some Unclear) Demo.final_rules z3
          (loop_status (c :: cs),
           {| soft := flat_map comment_clauses (processed (c :: cs));
              checked := None |})
    end.
Proof.
  destruct (get (processed_comments post_data) []) as [| c cs] eqn:E.
  - unfold Demo.solve_moral_situation_split_stream.
    rewrite E. reflexivity.
  - rewrite (demo_solve_nonempty z3 post_data c cs E), for_each_cases.
    reflexivity.
Qed.

Lemma after_loop_fst (fallthrough : option Verdict)
      (rules : Assignment -> option Verdict) (z3 : Solver)
      (st : result unit) (opt : Optimize) :
  fst (after_loop fallthrough rules z3 (st, opt))
  = match st with
    | Ok _ => Ok (if is_sat (check z3 (soft opt))
                  then rules (model z3 (soft opt)) else fallthrough)
    | Raise e => Raise e
    end.
Proof. destruct st; reflexivity. Qed.






(** X1. A run ends with a value, rather than an exception, exactly when
    every comment has a content vector that is missing or has at least four
    entries and two defined stream weights; this holds for both variants
    and does not depend on the optimizer. *)
Theorem returns_iff_well_formed (z3 : Solver) (post_data : Post) :
  ((exists v, fst (HighConflict.solve_moral_situation_split_stream z3 post_data)
              = Ok v)
   <-> Forall well_formed (get (processed_comments post_data) []))
  /\ ((exists v, fst (Demo.solve_moral_situation_split_stream z3 post_data)
                 = Ok v)
      <-> Forall well_formed (get (processed_comments post_data) [])).
Proof.
  rewrite hc_solve_cases, demo_solve_cases.
  destruct (get (processed_comments post_data) []) as [| c cs].
  - split; (split; [constructor | intros _; now eexists]).
  - rewrite !after_loop_fst, <- loop_status_ok.
    destruct (loop_status (c :: cs)) as [[] | e].
    + split; (split; [reflexivity | intros _; now eexists]).
    + split; (split; [intros [v H]; discriminate | discriminate]).
Qed.

(** X2. When a run raises, it does so before [check()] is ever called, the
    optimizer then holding the clauses added up to the failure; the same
    exception is raised in both variants and whatever the optimizer. *)
Theorem raise_precedes_check (z3 : Solver) (post_data : Post) (e : exn) :
  fst (HighConflict.solve_moral_situation_split_stream z3 post_data) = Raise e
  \/ fst (Demo.solve_moral_situation_split_stream z3 post_data) = Raise e ->
  forall z3',
    let opt :=
      {| soft := flat_map comment_clauses
                   (processed (get (processed_comments post_data) []));
         checked := None |} in
    HighConflict.solve_moral_situation_split_stream z3' post_data
    = (Raise e, opt)
    /\ Demo.solve_moral_situation_split_stream z3' post_data = (Raise e, opt).
Proof.
  rewrite !hc_solve_cases, !demo_solve_cases.
  intros H z3' opt. subst opt.
  rewrite hc_solve_cases, demo_solve_cases.
  destruct (get (processed_comments post_data) []) as [| c cs].
  - destruct H; discriminate.
  - rewrite !after_loop_fst in H.
    destruct (loop_status (c :: cs)) as [[] | e'].
    + destruct H; discriminate.
    + assert (e' = e) as -> by (destruct H; congruence).
      split; reflexivity.
Qed.

Lemma raise_precedes_check_witness :
  HighConflict.solve_moral_situation_split_stream undecided short_content
  = (Raise IndexError,
     {| soft := [clause (PyInt 1) harm 2; clause (PyInt 1) intent 2];
        checked := None |})
  /\ Demo.solve_moral_situation_split_stream undecided short_content
     = (Raise IndexError,
        {| soft := [clause (PyInt 1) harm 2; clause (PyInt 1) intent 2];
           checked := None |}).
Proof.
  apply (raise_precedes_check Exhaustive.solver short_content IndexError).
  left. reflexivity.
Defined.

(** X3. After a run that returns on a post with [n >= 1] comments, the
    optimizer holds exactly [4 * n] soft clauses, the four of each comment
    in comment order, none merged, and [check()] has been called once on
    them, in both variants. *)
Theorem four_clauses_per_comment (z3 : Solver) (post_data : Post)
        (c : Comment) (cs : list Comment) :
  get (processed_comments post_data) [] = c :: cs ->
  Forall well_formed (c :: cs) ->
  let clauses := flat_map comment_clauses (c :: cs) in
  length clauses = (4 * length (c :: cs))%nat
  /\ snd (HighConflict.solve_moral_situation_split_stream z3 post_data)
     = {| soft := clauses; checked := Some (check z3 clauses) |}
  /\ snd (Demo.solve_moral_situation_split_stream z3 post_data)
     = {| soft := clauses; checked := Some (check z3 clauses) |}.
Proof.
  intros E Hall clauses. subst clauses. split.
  - clear E. induction Hall as [| x l Hwf _ IH]; [reflexivity |].
    cbn [flat_map]. rewrite length_app, IH, (comment_clauses_length x Hwf).
    cbn [length]. lia.
  - rewrite hc_solve_cases, demo_solve_cases, E.
    rewrite (processed_all _ Hall).
    apply loop_status_ok in Hall. rewrite Hall. split; reflexivity.
Qed.

Lemma four_clauses_per_comment_witness :
  let clauses :=
    flat_map comment_clauses (get (processed_comments legacy_post) []) in
  length clauses = (4 * 2)%nat
  /\ snd (HighConflict.solve_moral_situation_split_stream undecided legacy_post)
     = {| soft := clauses; checked := Some unknown |}
  /\ snd (Demo.solve_moral_situation_split_stream undecided legacy_post)
     = {| soft := clauses; checked := Some unknown |}.
Proof.
  exact (four_clauses_per_comment undecided legacy_post _ _ eq_refl
           legacy_post_well_formed).
Defined.

(** X4. "No Data" is returned exactly for the posts without comments: a
    post with at least one comment never gets it, in either variant. *)
Theorem no_data_iff_no_comments (z3 : Solver) (post_data : Post) :
  (fst (HighConflict.solve_moral_situation_split_stream z3 post_data)
   = Ok (Some NoData)
   <-> get (processed_comments post_data) [] = [])
  /\ (fst (Demo.solve_moral_situation_split_stream z3 post_data)
      = Ok (Some NoData)
      <-> get (processed_comments post_data) [] = []).
Proof.
  rewrite hc_solve_cases, demo_solve_cases.
  destruct (get (processed_comments post_data) []) as [| c cs].
  - split; split; reflexivity.
  - rewrite !after_loop_fst.
    destruct (loop_status (c :: cs)) as [[] | e];
      [| split; split; discriminate].
    destruct (is_sat (check z3 _)); [| split; split; discriminate].
    generalize (model z3 (soft {| soft := flat_map comment_clauses
                                           (processed (c :: cs));
                                  checked := None |})).
    intros [[|] [|] [|] [|]]; split; split; discriminate.
Qed.

(** X5. The two variants are one function up to their labels: on every
    post and with the same optimizer they leave the optimizer in the same
    state and raise the same exceptions, and where
    [high_conflict_z3.py] returns a label [demo.py] returns it with "NTA"
    and "NAH" exchanged, and "Unclear" where the former returns nothing. *)
Theorem variants_correspond (z3 : Solver) (post_data : Post) :
  Demo.solve_moral_situation_split_stream z3 post_data
  = (rmap relabel
       (fst (HighConflict.solve_moral_situation_split_stream z3 post_data)),
     snd (HighConflict.solve_moral_situation_split_stream z3 post_data)).
Proof.
  rewrite hc_solve_cases, demo_solve_cases.
  destruct (get (processed_comments post_data) []) as [| c cs];
    [reflexivity |].
  unfold after_loop.
  destruct (loop_status (c :: cs)) as [[] | e]; [| reflexivity].
  cbn [fst snd rmap soft].
  destruct (is_sat (check z3 _)); [| reflexivity].
  generalize (model z3 (flat_map comment_clauses (processed (c :: cs)))).
  intros [[|] [|] [|] [|]]; reflexivity.
Qed.

(** ** Satisfied weight, proposition by proposition *)

Lemma satisfied_weight_support (cs : list SoftClause) (a : Assignment) :
  satisfied_weight cs a
  = support cs harm (is_harm a) + support cs intent (is_intent a)
    + support cs empathy (is_empathy a) + support cs apology (is_apology a).
Proof.
  induction cs as [| c cs IH]; cbn [satisfied_weight support]; [reflexivity |].
  rewrite IH. unfold satisfied.
  destruct c as [[x | x] w]; destruct x;
    destruct a as [[|] [|] [|] [|]]; cbn; lia.
Qed.

Lemma satisfied_weight_app (cs1 cs2 : list SoftClause) (a : Assignment) :
  satisfied_weight (cs1 ++ cs2) a
  = satisfied_weight cs1 a + satisfied_weight cs2 a.
Proof.
  induction cs1 as [| c cs1 IH]; cbn [app satisfied_weight]; [reflexivity |].
  rewrite IH. lia.
Qed.

Lemma satisfied_weight_perm (cs1 cs2 : list SoftClause) (a : Assignment) :
  Permutation cs1 cs2 -> satisfied_weight cs1 a = satisfied_weight cs2 a.
Proof.
  induction 1 as [| c l l' _ IH | c d l | l l' l'' _ IH1 _ IH2];
    cbn [satisfied_weight]; lia.
Qed.

Lemma satisfied_weight_zero (cs : list SoftClause) (a : Assignment) :
  Forall (fun c => weight c = 0) cs -> satisfied_weight cs a = 0.
Proof.
  induction 1 as [| c cs Hc _ IH]; cbn [satisfied_weight]; [reflexivity |].
  rewrite Hc, IH. destruct (satisfied a c); reflexivity.
Qed.

Lemma optimal_ext (cs1 cs2 : list SoftClause) :
  (forall a, satisfied_weight cs1 a = satisfied_weight cs2 a) ->
  forall a, optimal cs1 a <-> optimal cs2 a.
Proof.
  intros H a. unfold optimal.
  split; intros Ho a'; specialize (Ho a');
    rewrite ?H in *; rewrite <- ?H in *; lia.
Qed.

Lemma optimal_majorities (cs : list SoftClause) (a : Assignment) :
  optimal cs a <->
  forall x, support cs x (negb (value a x)) <= support cs x (value a x).
Proof.
  split.
  - intros H x. specialize (H (flip a x)).
    rewrite !satisfied_weight_support in H.
    destruct x; cbn [flip value is_harm is_intent is_empathy is_apology] in *;
      lia.
  - intros H a'. rewrite !satisfied_weight_support.
    pose proof (H harm) as Hh. pose proof (H intent) as Hi.
    pose proof (H empathy) as He. pose proof (H apology) as Ha.
    cbn [value] in Hh, Hi, He, Ha.
    assert (forall x b, support cs x b <= support cs x (value a x)) as Hmax.
    { intros x b. specialize (H x).
      destruct (value a x), b; cbn [negb] in H; lia. }
    pose proof (Hmax harm (is_harm a')). pose proof (Hmax intent (is_intent a')).
    pose proof (Hmax empathy (is_empathy a')).
    pose proof (Hmax apology (is_apology a')).
    cbn [value] in *. lia.
Qed.

Lemma optimal_follows_majority (cs : list SoftClause) (a : Assignment)
      (x : Proposition) (b : bool) :
  optimal cs a -> majority cs x b -> value a x = b.
Proof.
  intros Ho Hm. apply optimal_majorities with (x := x) in Ho.
  unfold majority in Hm.
  destruct (value a x), b; cbn [negb] in *; try reflexivity; lia.
Qed.

Lemma solve_soft (z3 : Solver) (post_data : Post) :
  Forall well_formed (get (processed_comments post_data) []) ->
  soft (snd (HighConflict.solve_moral_situation_split_stream z3 post_data))
  = flat_map comment_clauses (get (processed_comments post_data) [])
  /\ soft (snd (Demo.solve_moral_situation_split_stream z3 post_data))
     = flat_map comment_clauses (get (processed_comments post_data) []).
Proof.
  intros Hall. rewrite hc_solve_cases, demo_solve_cases.
  destruct (get (processed_comments post_data) []) as [| c cs];
    [split; reflexivity |].
  rewrite (processed_all _ Hall).
  apply loop_status_ok in Hall. rewrite Hall. split; reflexivity.
Qed.

Lemma solve_fst_sat (z3 : Solver) (post_data : Post)
      (c : Comment) (cs : list Comment) :
  get (processed_comments post_data) [] = c :: cs ->
  Forall well_formed (c :: cs) ->
  check z3 (flat_map comment_clauses (c :: cs)) = sat ->
  fst (HighConflict.solve_moral_situation_split_stream z3 post_data)
  = Ok (HighConflict.final_rules
          (model z3 (flat_map comment_clauses (c :: cs))))
  /\ fst (Demo.solve_moral_situation_split_stream z3 post_data)
     = Ok (Demo.final_rules
             (model z3 (flat_map comment_clauses (c :: cs)))).
Proof.
  intros E Hall Hsat. rewrite hc_solve_cases, demo_solve_cases, E.
  rewrite (processed_all _ Hall).
  apply loop_status_ok in Hall. rewrite Hall.
  unfold after_loop. cbn [soft fst]. rewrite Hsat. cbn [is_sat].
  split; reflexivity.
Qed.

(** X6. With an optimizer that answers [sat] with a maximal model, the
    verdict of a post whose run returns is read off strict weighted
    majorities: a majority against harm gives "NTA" ("NAH" in [demo.py]);
    majorities for harm and for intent give "YTA"; a majority for harm and
    against intent gives "ESH" when empathy and apology both have
    majorities against them, and "NAH" ("NTA" in [demo.py]) when one of
    them has a majority for it. *)
Theorem verdict_by_majority (z3 : Solver) (post_data : Post)
        (c : Comment) (cs : list Comment) :
  get (processed_comments post_data) [] = c :: cs ->
  Forall well_formed (c :: cs) ->
  let cl := flat_map comment_clauses (c :: cs) in
  check z3 cl = sat ->
  optimal cl (model z3 cl) ->
  let hc := fst (HighConflict.solve_moral_situation_split_stream z3 post_data) in
  let demo := fst (Demo.solve_moral_situation_split_stream z3 post_data) in
  (majority cl harm false -> hc = Ok (Some NTA) /\ demo = Ok (Some NAH))
  /\ (majority cl harm true -> majority cl intent true ->
      hc = Ok (Some YTA) /\ demo = Ok (Some YTA))
  /\ (majority cl harm true -> majority cl intent false ->
      majority cl empathy false -> majority cl apology false ->
      hc = Ok (Some ESH) /\ demo = Ok (Some ESH))
  /\ (majority cl harm true -> majority cl intent false ->
      majority cl empathy true \/ majority cl apology true ->
      hc = Ok (Some NAH) /\ demo = Ok (Some NTA)).
Proof.
  intros E Hall cl Hsat Hopt hc demo.
  destruct (solve_fst_sat z3 post_data c cs E Hall Hsat) as [Hhc Hdemo].
  subst hc demo. rewrite Hhc, Hdemo. fold cl.
  pose proof (optimal_follows_majority cl (model z3 cl)) as Hm.
  specialize (Hm) with (1 := Hopt).
  destruct (model z3 cl) as [h i e ap]. cbn [value] in Hm.
  unfold HighConflict.final_rules, Demo.final_rules.
  cbn [is_harm is_intent is_empathy is_apology].
  split; [| split; [| split]].
  - intros H1. assert (h = false) as -> by exact (Hm harm false H1).
    split; reflexivity.
  - intros H1 H2. assert (h = true) as -> by exact (Hm harm true H1).
    assert (i = true) as -> by exact (Hm intent true H2).
    split; reflexivity.
  - intros H1 H2 H3 H4. assert (h = true) as -> by exact (Hm harm true H1).
    assert (i = false) as -> by exact (Hm intent false H2).
    assert (e = false) as -> by exact (Hm empathy false H3).
    assert (ap = false) as -> by exact (Hm apology false H4).
    split; reflexivity.
  - intros H1 H2 H3. assert (h = true) as -> by exact (Hm harm true H1).
    assert (i = false) as -> by exact (Hm intent false H2).
    destruct H3 as [H3 | H3].
    + assert (e = true) as -> by exact (Hm empathy true H3).
      split; reflexivity.
    + assert (ap = true) as -> by exact (Hm apology true H3).
      destruct e; split; reflexivity.
Qed.

Lemma conflict_post_well_formed :
  Forall well_formed (get (processed_comments conflict_post) []).
Proof.
  repeat constructor; vm_compute; try reflexivity; try lia; trivial.
Qed.

(** Harm has weight 5 for and 2 against, intent 7 for: "YTA". *)
Lemma verdict_by_majority_witness :
  fst (HighConflict.solve_moral_situation_split_stream
         Exhaustive.solver conflict_post) = Ok (Some YTA)
  /\ fst (Demo.solve_moral_situation_split_stream
            Exhaustive.solver conflict_post) = Ok (Some YTA).
Proof.
  apply (proj1 (proj2 (verdict_by_majority Exhaustive.solver conflict_post
                         _ _ eq_refl conflict_post_well_formed eq_refl
                         (maximize_optimal _)))).
  - vm_compute. reflexivity.
  - vm_compute. reflexivity.
Defined.

(** ** Comments that carry no weight, and the order of comments *)

Lemma partial_votes_zero (c_vec : list num) :
  Forall (fun c => weight c = 0) (partial_votes c_vec 0 0).
Proof.
  unfold partial_votes. apply Forall_forall. intros c Hin.
  apply in_map_iff in Hin. destruct Hin as ([ci [x w]] & <- & Hin).
  apply in_combine_r in Hin. cbn [clause weight fst snd].
  unfold ballot in Hin. cbn [In] in Hin.
  destruct Hin as [H | [H | [H | [H | []]]]]; congruence.
Qed.

Lemma muted_weights (c_vec : option (list num)) (l : list Z) :
  nth 4 l 1 = 0 ->
  let comment := {| comment_content_vector := c_vec;
                    comment_quality_vector := Some (ints l) |} in
  logic_weight (quality_of comment) = Ok 0
  /\ ethic_weight (quality_of comment) = Ok 0.
Proof.
  intros H comment. unfold logic_weight, ethic_weight, quality_of, comment.
  cbn [get comment_quality_vector].
  rewrite !entry_ints, !stream_weight_ints, H.
  split; f_equal; lia.
Qed.

(** X7. A comment whose quality vector is made of integers with
    [non_biased = 0] has no say: whatever it votes for, the clauses held by
    the optimizer after the run give every assignment the satisfied weight
    they give it when the comment is left out of the post, so the optimal
    assignments are the same. *)
Theorem zero_multiplier_mutes (z3 : Solver) (p p' : Post)
        (before after : list Comment) (c_vec : option (list num))
        (l : list Z) :
  let comment := {| comment_content_vector := c_vec;
                    comment_quality_vector := Some (ints l) |} in
  processed_comments p = Some (before ++ comment :: after) ->
  processed_comments p' = Some (before ++ after) ->
  Forall well_formed (before ++ comment :: after) ->
  nth 4 l 1 = 0 ->
  let cl := soft (snd (HighConflict.solve_moral_situation_split_stream z3 p)) in
  let cl' := soft (snd (HighConflict.solve_moral_situation_split_stream z3 p')) in
  cl = soft (snd (Demo.solve_moral_situation_split_stream z3 p))
  /\ cl' = soft (snd (Demo.solve_moral_situation_split_stream z3 p'))
  /\ (forall a, satisfied_weight cl a = satisfied_weight cl' a)
  /\ (forall a, optimal cl a <-> optimal cl' a).
Proof.
  intros comment Hp Hp' Hall Hz cl cl'.
  assert (Hall' : Forall well_formed (before ++ after)).
  { apply Forall_app in Hall. destruct Hall as [H1 H2].
    apply Forall_app. split; [exact H1 | inversion H2; assumption]. }
  destruct (solve_soft z3 p) as [E1 E2].
  { rewrite Hp. exact Hall. }
  destruct (solve_soft z3 p') as [E1' E2'].
  { rewrite Hp'. exact Hall'. }
  subst cl cl'. rewrite E1, E2, E1', E2', Hp, Hp'. cbn [get].
  split; [reflexivity |]. split; [reflexivity |].
  assert (Hsw : forall a,
             satisfied_weight
               (flat_map comment_clauses (before ++ comment :: after)) a
             = satisfied_weight (flat_map comment_clauses (before ++ after)) a).
  { intros a. rewrite !flat_map_app. cbn [flat_map].
    rewrite !satisfied_weight_app.
    assert (satisfied_weight (comment_clauses comment) a = 0) as ->; [| lia].
    apply satisfied_weight_zero. unfold comment_clauses, comment.
    destruct (muted_weights c_vec l Hz) as [-> ->].
    apply partial_votes_zero. }
  split; [exact Hsw | apply optimal_ext; exact Hsw].
Qed.

Lemma zero_multiplier_mutes_witness :
  let cl := soft (snd (HighConflict.solve_moral_situation_split_stream
                         undecided
                         (post_of [comment_of [1; 1; 0; 0] [1; 1; 1; 1; 1];
                                   muted_comment]))) in
  let cl' := soft (snd (HighConflict.solve_moral_situation_split_stream
                          undecided scenario_A)) in
  cl = soft (snd (Demo.solve_moral_situation_split_stream
                    undecided
                    (post_of [comment_of [1; 1; 0; 0] [1; 1; 1; 1; 1];
                              muted_comment])))
  /\ cl' = soft (snd (Demo.solve_moral_situation_split_stream
                        undecided scenario_A))
  /\ (forall a, satisfied_weight cl a = satisfied_weight cl' a)
  /\ (forall a, optimal cl a <-> optimal cl' a).
Proof.
  apply (zero_multiplier_mutes undecided
           (post_of [comment_of [1; 1; 0; 0] [1; 1; 1; 1; 1]; muted_comment])
           scenario_A
           [comment_of [1; 1; 0; 0] [1; 1; 1; 1; 1]] []
           (Some (ints [0; 0; 1; 1])) [2; 1; 1; 1; 0]).
  - reflexivity.
  - reflexivity.
  - repeat constructor; vm_compute; try reflexivity; try lia; trivial.
  - reflexivity.
Defined.

Lemma argmax_ext (s1 s2 : Assignment -> Z) (best : Assignment)
      (candidates : list Assignment) :
  (forall a, s1 a = s2 a) ->
  Exhaustive.argmax s1 best candidates = Exhaustive.argmax s2 best candidates.
Proof.
  intros H. revert best.
  induction candidates as [| a rest IH]; intros best;
    cbn [Exhaustive.argmax]; [reflexivity |].
  rewrite !H. apply IH.
Qed.

(** X8. The order of the comments does not matter to the optimization: two
    posts whose well-formed comments are a permutation of one another leave
    clauses that give every assignment the same satisfied weight, hence
    have the same optimal assignments; with the exhaustive optimizer both
    variants return the same verdict for the two posts. *)
Theorem comment_order_irrelevant (z3 : Solver) (p p' : Post) :
  Permutation (get (processed_comments p) []) (get (processed_comments p') []) ->
  Forall well_formed (get (processed_comments p) []) ->
  let cl := soft (snd (HighConflict.solve_moral_situation_split_stream z3 p)) in
  let cl' := soft (snd (HighConflict.solve_moral_situation_split_stream z3 p')) in
  (forall a, satisfied_weight cl a = satisfied_weight cl' a)
  /\ (forall a, optimal cl a <-> optimal cl' a)
  /\ fst (HighConflict.solve_moral_situation_split_stream Exhaustive.solver p)
     = fst (HighConflict.solve_moral_situation_split_stream Exhaustive.solver p')
  /\ fst (Demo.solve_moral_situation_split_stream Exhaustive.solver p)
     = fst (Demo.solve_moral_situation_split_stream Exhaustive.solver p').
Proof.
  intros Hperm Hall cl cl'.
  assert (Hall' : Forall well_formed (get (processed_comments p') [])).
  { apply (Permutation_Forall Hperm). exact Hall. }
  destruct (solve_soft z3 p Hall) as [E _].
  destruct (solve_soft z3 p' Hall') as [E' _].
  subst cl cl'. rewrite E, E'.
  assert (Hsw : forall a,
             satisfied_weight
               (flat_map comment_clauses (get (processed_comments p) [])) a
             = satisfied_weight
                 (flat_map comment_clauses (get (processed_comments p') [])) a).
  { intros a. apply satisfied_weight_perm.
    apply Permutation_flat_map. exact Hperm. }
  split; [exact Hsw |]. split; [apply optimal_ext; exact Hsw |].
  destruct (get (processed_comments p) []) as [| c cs] eqn:Ep;
    destruct (get (processed_comments p') []) as [| c' cs'] eqn:Ep'.
  - rewrite !hc_solve_cases, !demo_solve_cases, Ep, Ep'. split; reflexivity.
  - apply Permutation_nil in Hperm. discriminate.
  - apply Permutation_sym, Permutation_nil in Hperm. discriminate.
  - destruct (solve_fst_sat Exhaustive.solver p c cs Ep Hall eq_refl)
      as [-> ->].
    destruct (solve_fst_sat Exhaustive.solver p' c' cs' Ep' Hall' eq_refl)
      as [-> ->].
    assert (model Exhaustive.solver (flat_map comment_clauses (c :: cs))
            = model Exhaustive.solver (flat_map comment_clauses (c' :: cs')))
      as ->; [| split; reflexivity].
    cbn [model Exhaustive.solver]. unfold Exhaustive.maximize.
    apply argmax_ext. exact Hsw.
Qed.

Lemma comment_order_irrelevant_witness :
  let cl := soft (snd (HighConflict.solve_moral_situation_split_stream
                         undecided conflict_post)) in
  let cl' := soft (snd (HighConflict.solve_moral_situation_split_stream
                          undecided conflict_post_swapped)) in
  (forall a, satisfied_weight cl a = satisfied_weight cl' a)
  /\ (forall a, optimal cl a <-> optimal cl' a)
  /\ fst (HighConflict.solve_moral_situation_split_stream
            Exhaustive.solver conflict_post)
     = fst (HighConflict.solve_moral_situation_split_stream
              Exhaustive.solver conflict_post_swapped)
  /\ fst (Demo.solve_moral_situation_split_stream
            Exhaustive.solver conflict_post)
     = fst (Demo.solve_moral_situation_split_stream
              Exhaustive.solver conflict_post_swapped).
Proof.
  apply (comment_order_irrelevant undecided conflict_post conflict_post_swapped).
  - apply perm_swap.
  - exact conflict_post_well_formed.
Defined.

(** ** Content entries after the fourth *)

Lemma content_of_trim (comment : Comment) :
  content_of (trim_content comment) = firstn 4 (content_of comment).
Proof.
  unfold content_of, trim_content. cbn [comment_content_vector].
  destruct (comment_content_vector comment); reflexivity.
Qed.

Lemma comment_status_trim (comment : Comment) :
  comment_status (trim_content comment) = comment_status comment.
Proof.
  unfold comment_status. rewrite content_of_trim.
  change (quality_of (trim_content comment)) with (quality_of comment).
  destruct (logic_weight (quality_of comment)); [| reflexivity].
  destruct (ethic_weight (quality_of comment)); [| reflexivity].
  rewrite length_firstn.
  destruct (Nat.leb_spec 4 (length (content_of comment)));
    destruct (Nat.leb_spec 4 (Nat.min 4 (length (content_of comment))));
    try reflexivity; lia.
Qed.

Lemma comment_clauses_trim (comment : Comment) :
  comment_clauses (trim_content comment) = comment_clauses comment.
Proof.
  unfold comment_clauses. rewrite content_of_trim.
  change (quality_of (trim_content comment)) with (quality_of comment).
  destruct (logic_weight (quality_of comment)) as [wl |]; [| reflexivity].
  destruct (ethic_weight (quality_of comment)) as [we |]; [| reflexivity].
  unfold partial_votes.
  rewrite (combine_firstn_r (content_of comment) (ballot wl we)).
  reflexivity.
Qed.

Lemma loop_status_trim (comments : list Comment) :
  loop_status (map trim_content comments) = loop_status comments.
Proof.
  induction comments as [| c cs IH]; cbn [map loop_status]; [reflexivity |].
  rewrite comment_status_trim, IH. reflexivity.
Qed.

Lemma processed_trim (comments : list Comment) :
  flat_map comment_clauses (processed (map trim_content comments))
  = flat_map comment_clauses (processed comments).
Proof.
  induction comments as [| c cs IH]; cbn [map processed]; [reflexivity |].
  rewrite comment_status_trim.
  destruct (comment_status c); cbn [flat_map];
    rewrite comment_clauses_trim, ?IH; reflexivity.
Qed.

(** X9. Only the first four entries of a content vector are ever read:
    dropping the entries after the fourth in every comment changes neither
    the result nor the final optimizer state of either variant. *)
Theorem extra_content_ignored (z3 : Solver) (post_data : Post) :
  HighConflict.solve_moral_situation_split_stream z3
    (map_comments trim_content post_data)
  = HighConflict.solve_moral_situation_split_stream z3 post_data
  /\ Demo.solve_moral_situation_split_stream z3
       (map_comments trim_content post_data)
     = Demo.solve_moral_situation_split_stream z3 post_data.
Proof.
  rewrite !hc_solve_cases, !demo_solve_cases.
  assert (E : get (processed_comments (map_comments trim_content post_data)) []
              = map trim_content (get (processed_comments post_data) [])).
  { unfold map_comments. cbn [processed_comments].
    destruct (processed_comments post_data); reflexivity. }
  rewrite E.
  destruct (get (processed_comments post_data) []) as [| c cs];
    [split; reflexivity |].
  cbn [map].
  change (trim_content c :: map trim_content cs)
    with (map trim_content (c :: cs)).
  rewrite loop_status_trim, processed_trim. split; reflexivity.
Qed.

(** ** Weights of non-negative quality vectors *)

Lemma binary_round_aux_sign (s : bool) (m e : Z) (l : location) :
  not_below_zero (PyFloat (binary_round_aux prec emax s m e l)) \/ s = true.
Proof.
  unfold binary_round_aux.
  destruct (shr_fexp prec emax m e l) as [mrs' e'].
  destruct (shr_fexp prec emax _ e' loc_Exact) as [mrs'' e''].
  destruct (shr_m mrs'') as [| p | p]; cbn [not_below_zero]; auto.
  destruct (e'' <=? emax - prec); cbn [not_below_zero]; auto.
  destruct s; auto.
Qed.

Lemma binary_round_sign (m : positive) (e : Z) :
  not_below_zero (PyFloat (binary_round prec emax false m e)).
Proof.
  unfold binary_round.
  destruct (shl_align m e _) as [mz ez].
  destruct (binary_round_aux_sign false (Zpos mz) ez loc_Exact);
    [assumption | discriminate].
Qed.

Lemma to_float_sign (x : num) (f : spec_float) :
  not_below_zero x -> to_float x = Ok f -> not_below_zero (PyFloat f).
Proof.
  destruct x as [z | g]; cbn [to_float].
  - unfold float_of_int, binary_normalize. intros Hz.
    destruct z as [| p | p]; cbn [not_below_zero] in Hz; try lia.
    + intros H. injection H as <-. exact I.
    + pose proof (binary_round_sign p 0) as Hs.
      destruct (binary_round prec emax false p 0); intros H;
        try discriminate; injection H as <-; exact Hs.
  - intros Hg H. injection H as <-. exact Hg.
Qed.

Lemma fadd_sign (a b : spec_float) :
  not_below_zero (PyFloat a) -> not_below_zero (PyFloat b) ->
  not_below_zero (PyFloat (fadd a b)).
Proof.
  unfold fadd, SFadd.
  destruct a as [sa | sa | | sa ma ea]; destruct b as [sb | sb | | sb mb eb];
    cbn [not_below_zero]; intros Ha Hb; subst;
    try (destruct sa; try destruct sb; cbn [not_below_zero]; auto; fail);
    try (destruct sb; cbn [not_below_zero]; auto; fail); auto.
  cbn [cond_Zopp Z.add binary_normalize].
  apply binary_round_sign.
Qed.

Lemma fmul_sign (a b : spec_float) :
  not_below_zero (PyFloat a) -> not_below_zero (PyFloat b) ->
  not_below_zero (PyFloat (fmul a b)).
Proof.
  unfold fmul, SFmul.
  destruct a as [sa | sa | | sa ma ea]; destruct b as [sb | sb | | sb mb eb];
    cbn [not_below_zero]; intros Ha Hb; subst; auto.
  destruct (binary_round_aux_sign (xorb false false)
              (Zpos (ma * mb)) (ea + eb) loc_Exact);
    [assumption | discriminate].
Qed.

Lemma add_sign (x y s : num) :
  not_below_zero x -> not_below_zero y -> add x y = Ok s -> not_below_zero s.
Proof.
  intros Hx Hy H.
  assert (Hf : rbind (to_float x) (fun a =>
               rbind (to_float y) (fun b => Ok (PyFloat (fadd a b)))) = Ok s ->
               not_below_zero s).
  { unfold rbind.
    destruct (to_float x) as [a |] eqn:Ea; [| discriminate].
    destruct (to_float y) as [b |] eqn:Eb; [| discriminate].
    intros E. injection E as <-.
    apply fadd_sign; [exact (to_float_sign x a Hx Ea)
                     | exact (to_float_sign y b Hy Eb)]. }
  destruct x as [a | a]; destruct y as [b | b]; cbn [add] in H;
    try (apply Hf; exact H).
  injection H as <-. cbn [not_below_zero] in *. lia.
Qed.

Lemma mul_sign (x y s : num) :
  not_below_zero x -> not_below_zero y -> mul x y = Ok s -> not_below_zero s.
Proof.
  intros Hx Hy H.
  assert (Hf : rbind (to_float x) (fun a =>
               rbind (to_float y) (fun b => Ok (PyFloat (fmul a b)))) = Ok s ->
               not_below_zero s).
  { unfold rbind.
    destruct (to_float x) as [a |] eqn:Ea; [| discriminate].
    destruct (to_float y) as [b |] eqn:Eb; [| discriminate].
    intros E. injection E as <-.
    apply fmul_sign; [exact (to_float_sign x a Hx Ea)
                     | exact (to_float_sign y b Hy Eb)]. }
  destruct x as [a | a]; destruct y as [b | b]; cbn [mul] in H;
    try (apply Hf; exact H).
  injection H as <-. cbn [not_below_zero] in *. lia.
Qed.

Lemma int_sign (x : num) (w : Z) :
  not_below_zero x -> int x = Ok w -> 0 <= w.
Proof.
  intros Hx H. pose proof (int_truncates x w H) as Ht.
  destruct x as [z | [s | s | | s m e]];
    cbn [not_below_zero truncation_of] in *; try lia; try contradiction.
  subst s. destruct Ht as [Ht _]. exact Ht.
Qed.

Lemma nonneg_not_below_zero (x : num) : nonneg x -> not_below_zero x.
Proof.
  destruct x as [z | [s | s | | s m e]]; cbn [nonneg not_below_zero]; auto.
Qed.

Lemma stream_weight_sign (a b c : num) (w : Z) :
  nonneg a -> nonneg b -> nonneg c -> stream_weight a b c = Ok w -> 0 <= w.
Proof.
  intros Ha Hb Hc H.
  destruct (stream_weight_inv a b c w H) as (s & p & Hs & Hp & Hi & _).
  apply nonneg_not_below_zero in Ha, Hb, Hc.
  apply (int_sign p w); [| exact Hi].
  apply (mul_sign s c p); [| exact Hc | exact Hp].
  apply (add_sign a b s); assumption.
Qed.

Lemma entry_nonneg (q_vec : list num) (k : nat) :
  Forall nonneg q_vec -> nonneg (entry q_vec k).
Proof.
  intros H. unfold entry.
  destruct (Nat.lt_ge_cases k (length q_vec)) as [Hk | Hk].
  - rewrite Forall_forall in H. apply H. apply nth_In. exact Hk.
  - rewrite nth_overflow by assumption. cbn [nonneg]. lia.
Qed.

Lemma comment_clauses_nonneg (comment : Comment) :
  quality_nonneg comment ->
  Forall (fun c => 0 <= weight c) (comment_clauses comment).
Proof.
  unfold quality_nonneg, comment_clauses, logic_weight, ethic_weight.
  intros Hq.
  destruct (stream_weight (entry (quality_of comment) 0) _ _)
    as [wl |] eqn:El; [| constructor].
  destruct (stream_weight (entry (quality_of comment) 1) _ _)
    as [we |] eqn:Ee; [| constructor].
  apply stream_weight_sign in El; try apply entry_nonneg; try assumption.
  apply stream_weight_sign in Ee; try apply entry_nonneg; try assumption.
  unfold partial_votes. apply Forall_forall. intros c Hin.
  apply in_map_iff in Hin. destruct Hin as ([ci [x w]] & <- & Hin).
  apply in_combine_r in Hin. cbn [clause weight fst snd].
  unfold ballot in Hin. cbn [In] in Hin.
  destruct Hin as [H | [H | [H | [H | []]]]]; injection H as _ <-; assumption.
Qed.

Lemma processed_incl (comments : list Comment) :
  incl (processed comments) comments.
Proof.
  induction comments as [| c cs IH]; cbn [processed]; [apply incl_refl |].
  destruct (comment_status c).
  - apply incl_cons; [left; reflexivity | apply incl_tl; exact IH].
  - apply incl_cons; [left; reflexivity | apply incl_nil_l].
Qed.

(** X10. When no comment supplies a negative quality entry (integers and
    floats alike, missing entries counting as 1), every soft clause handed
    to the optimizer has a weight that is zero or positive, whether the run
    returns or raises. *)
Theorem weights_never_negative (z3 : Solver) (post_data : Post) :
  Forall quality_nonneg (get (processed_comments post_data) []) ->
  Forall (fun c => 0 <= weight c)
         (soft (snd (HighConflict.solve_moral_situation_split_stream
                       z3 post_data)))
  /\ Forall (fun c => 0 <= weight c)
            (soft (snd (Demo.solve_moral_situation_split_stream
                          z3 post_data))).
Proof.
  intros Hq. rewrite hc_solve_cases, demo_solve_cases.
  destruct (get (processed_comments post_data) []) as [| c cs];
    [split; constructor |].
  assert (H : Forall (fun cl => 0 <= weight cl)
                     (flat_map comment_clauses (processed (c :: cs)))).
  { apply Forall_flat_map. apply Forall_forall. intros x Hx.
    apply comment_clauses_nonneg.
    rewrite Forall_forall in Hq. apply Hq.
    exact (processed_incl (c :: cs) x Hx). }
  unfold after_loop.
  destruct (loop_status (c :: cs)); cbn [snd soft]; split; exact H.
Qed.

Lemma weights_never_negative_witness :
  Forall (fun c => 0 <= weight c)
         (soft (snd (HighConflict.solve_moral_situation_split_stream
                       undecided legacy_post)))
  /\ Forall (fun c => 0 <= weight c)
            (soft (snd (Demo.solve_moral_situation_split_stream
                          undecided legacy_post))).
Proof.
  apply (weights_never_negative undecided legacy_post).
  repeat constructor; cbn; lia.
Defined.

(** ** The batch run *)

Lemma hc_returns (z3 : Solver) (post : Post) :
  post_ok post ->
  exists v, fst (HighConflict.solve_moral_situation_split_stream z3 post) = Ok v.
Proof.
  unfold post_ok. intros H. rewrite hc_solve_cases.
  destruct (get (processed_comments post) []) as [| c cs]; [now eexists |].
  rewrite after_loop_fst. apply loop_status_ok in H. rewrite H. now eexists.
Qed.

Lemma hc_raises (post : Post) :
  ~ post_ok post ->
  exists e, loop_status (get (processed_comments post) []) = Raise e
            /\ forall z3,
                fst (HighConflict.solve_moral_situation_split_stream z3 post)
                = Raise e.
Proof.
  unfold post_ok. intros H.
  destruct (get (processed_comments post) []) as [| c cs] eqn:E.
  - exfalso. apply H. constructor.
  - rewrite <- loop_status_ok in H.
    destruct (loop_status (c :: cs)) as [[] | e] eqn:El.
    + exfalso. apply H. reflexivity.
    + exists e. split; [reflexivity |]. intros z3.
      rewrite hc_solve_cases, E, after_loop_fst, El. reflexivity.
Qed.

Lemma process_lines_app (z3 : Session) (gt_map : Dict)
      (front rest : list Line) (ctx : z3_context z3) :
  Forall post_ok (posts_of front) ->
  exists ctx',
    process_lines z3 gt_map (front ++ rest) ctx [] 0
    = process_lines z3 gt_map rest ctx'
        (rows_in z3 gt_map ctx (posts_of front)) (length (posts_of front)).
Proof.
  intros H.
  assert (G : forall ctx rows count,
             exists ctx',
               process_lines z3 gt_map (front ++ rest) ctx rows count
               = process_lines z3 gt_map rest ctx'
                   (rows ++ rows_in z3 gt_map ctx (posts_of front))
                   (count + length (posts_of front))).
  { clear ctx.
    induction front as [| l front IH]; intros ctx rows count;
      cbn [app process_lines posts_of rows_in length].
    - exists ctx. rewrite app_nil_r, Nat.add_0_r. reflexivity.
    - destruct l as [| | post]; try (apply IH; exact H).
      cbn [posts_of] in H. inversion H as [| ? ? Hp Hrest]; subst.
      destruct (hc_returns (solver_at z3 ctx) post Hp) as [v Ev].
      cbn [rows_in length]. cbv zeta.
      destruct (HighConflict.solve_moral_situation_split_stream
                  (solver_at z3 ctx) post) as [r opt].
      cbn [fst snd] in *. subst r.
      destruct (IH Hrest (after_run z3 ctx opt)
                  (rows ++ [make_row gt_map post v]) (S count))
        as [ctx' E].
      exists ctx'. rewrite E, <- app_assoc. cbn [app]. f_equal. lia. }
  apply (G ctx [] 0%nat).
Qed.

(** X11. The batch writes one row per post line, in order, skipping blank
    lines and lines that are not valid JSON: when the solver returns on
    every post, [count] ends as the number of post lines, and each row
    carries the post's identifier, title and ground-truth label (with
    their defaults) and the verdict the solver returned for that post in
    the context the posts before it left. *)
Theorem batch_completes (z3 : Session) (ctx : z3_context z3)
        (gt_data : list GroundTruthPost) (lines : list Line) :
  Forall post_ok (posts_of lines) ->
  run_batch z3 ctx gt_data lines
  = (Ok (length (posts_of lines)),
     rows_in z3 (load_ground_truth gt_data) ctx (posts_of lines)).
Proof.
  intros H. unfold run_batch.
  destruct (process_lines_app z3 (load_ground_truth gt_data) lines [] ctx H)
    as [ctx' E].
  rewrite app_nil_r in E. exact E.
Qed.

(** Two lines with the tied post of scenario B get "NTA" and then "YTA"
    from a library that resolves ties differently on its second call. *)
Lemma batch_completes_witness :
  run_batch alternating 0%nat sample_ground_truth
    [Blank; Json tied_post; Malformed; Json tied_post; Json empty_post]
  = (Ok 3%nat,
     [ {| row_post_id := "p1"; row_title := "t";
          z3_verdict := Some NTA; row_ground_truth := "YTA" |};
       {| row_post_id := "p1"; row_title := "t";
          z3_verdict := Some YTA; row_ground_truth := "YTA" |};
       {| row_post_id := "p0"; row_title := "No Title";
          z3_verdict := Some NoData; row_ground_truth := "Unknown" |} ]).
Proof.
  apply (batch_completes alternating 0%nat sample_ground_truth
           [Blank; Json tied_post; Malformed; Json tied_post; Json empty_post]).
  repeat constructor; vm_compute; try reflexivity; try lia; trivial.
Defined.

(** X12. A post on which the solver raises ends the batch: the rows of
    the posts before it have been written, no row is written for it or for
    any line after it, whatever those lines hold, and the run ends with the
    exception instead of a count. *)
Theorem batch_aborts (z3 : Session) (ctx : z3_context z3)
        (gt_data : list GroundTruthPost) (front : list Line) (bad : Post) :
  Forall post_ok (posts_of front) ->
  ~ post_ok bad ->
  exists e,
    (forall z3',
        fst (HighConflict.solve_moral_situation_split_stream z3' bad)
        = Raise e)
    /\ forall rest,
        run_batch z3 ctx gt_data (front ++ Json bad :: rest)
        = (Raise e,
           rows_in z3 (load_ground_truth gt_data) ctx (posts_of front)).
Proof.
  intros Hfront Hbad.
  destruct (hc_raises bad Hbad) as (e & _ & He).
  exists e. split; [exact He |].
  intros rest. unfold run_batch.
  destruct (process_lines_app z3 (load_ground_truth gt_data) front
              (Json bad :: rest) ctx Hfront) as [ctx' E].
  rewrite E. cbn [process_lines].
  specialize (He (solver_at z3 ctx')).
  destruct (HighConflict.solve_moral_situation_split_stream
              (solver_at z3 ctx') bad) as [r opt].
  cbn [fst] in He. subst r. reflexivity.
Qed.

Lemma short_content_not_ok : ~ post_ok short_content.
Proof.
  intros H. inversion H as [| ? ? [Hc _] _]; subst.
  cbn in Hc. lia.
Qed.

Lemma batch_aborts_witness :
  exists e,
    (forall z3',
        fst (HighConflict.solve_moral_situation_split_stream z3' short_content)
        = Raise e)
    /\ forall rest,
        run_batch (stateless Exhaustive.solver) tt sample_ground_truth
          ([Blank; Json scenario_A; Malformed] ++ Json short_content :: rest)
        = (Raise e,
           rows_in (stateless Exhaustive.solver)
             (load_ground_truth sample_ground_truth) tt
             (posts_of [Blank; Json scenario_A; Malformed])).
Proof.
  apply (batch_aborts (stateless Exhaustive.solver) tt sample_ground_truth
           [Blank; Json scenario_A; Malformed] short_content).
  - repeat constructor; vm_compute; try reflexivity; try lia; trivial.
  - exact short_content_not_ok.
Defined.

Example sample_batch :
  run_batch (stateless Exhaustive.solver) tt sample_ground_truth sample_lines
  = (Raise IndexError,
     [ {| row_post_id := "p1"; row_title := "t";
          z3_verdict := Some YTA; row_ground_truth := "YTA" |} ]).
Proof. reflexivity. Qed.

(** ** The ground-truth table *)

Lemma record_label_other (gt_map : Dict) (post : GroundTruthPost) (k : string) :
  gt_post_id post <> Some k -> record_label gt_map post k = gt_map k.
Proof.
  unfold record_label. intros H.
  destruct (gt_post_id post) as [pid |]; [| reflexivity].
  destruct (truthy (Some pid)); [| reflexivity].
  unfold dict_set. destruct (String.eqb_spec k pid); [congruence | reflexivity].
Qed.

Lemma record_label_empty (gt_map : Dict) (post : GroundTruthPost) :
  record_label gt_map post ""%string = gt_map ""%string.
Proof.
  unfold record_label.
  destruct (gt_post_id post) as [[| a pid] |]; reflexivity.
Qed.

Lemma fold_record_label_other (gt_data : list GroundTruthPost)
      (gt_map : Dict) (k : string) :
  Forall (fun post => gt_post_id post <> Some k) gt_data ->
  fold_left record_label gt_data gt_map k = gt_map k.
Proof.
  intros H. revert gt_map.
  induction H as [| post rest Hp _ IH]; intros gt_map; cbn [fold_left];
    [reflexivity |].
  rewrite IH. apply record_label_other. exact Hp.
Qed.

(** X13. The ground-truth table keeps, for an identifier, the label of the
    last entry of the file that carries it ("Unknown" when that entry has
    no label); an identifier that no entry carries, and the empty
    identifier, are not in the table, so their rows get "Unknown". *)
Theorem ground_truth_last_wins (gt_data : list GroundTruthPost) (k : string) :
  (forall earlier later post,
      gt_data = earlier ++ post :: later ->
      gt_post_id post = Some k ->
      k <> ""%string ->
      Forall (fun p => gt_post_id p <> Some k) later ->
      load_ground_truth gt_data k
      = Some (get (ground_truth_label post) "Unknown"%string))
  /\ (Forall (fun p => gt_post_id p <> Some k) gt_data ->
      load_ground_truth gt_data k = None)
  /\ load_ground_truth gt_data ""%string = None.
Proof.
  unfold load_ground_truth. split; [| split].
  - intros earlier later post -> Hid Hk Hlater.
    rewrite fold_left_app. cbn [fold_left].
    rewrite (fold_record_label_other later _ k Hlater).
    unfold record_label. rewrite Hid.
    destruct k as [| a k']; [congruence |].
    cbn [truthy]. unfold dict_set. rewrite String.eqb_refl. reflexivity.
  - intros H. rewrite (fold_record_label_other gt_data _ k H). reflexivity.
  - assert (G : forall m : Dict, fold_left record_label gt_data m ""%string
                                 = m ""%string).
    { induction gt_data as [| p rest IH]; intros m; cbn [fold_left];
        [reflexivity |].
      rewrite IH. apply record_label_empty. }
    rewrite G. reflexivity.
Qed.

Lemma ground_truth_last_wins_witness :
  load_ground_truth sample_ground_truth "p1"%string = Some "YTA"%string.
Proof.
  apply (proj1 (ground_truth_last_wins sample_ground_truth "p1"%string)
           [ {| gt_post_id := Some "p1"%string;
                ground_truth_label := Some "NTA"%string |};
             {| gt_post_id := None; ground_truth_label := Some "ESH"%string |} ]
           [ {| gt_post_id := Some ""%string;
                ground_truth_label := Some "NAH"%string |} ]
           {| gt_post_id := Some "p1"%string;
              ground_truth_label := Some "YTA"%string |}).
  - reflexivity.
  - reflexivity.
  - discriminate.
  - repeat constructor. discriminate.
Defined.

(** ** The statistics *)

Lemma filter_split_length {A} (f : A -> bool) (l : list A) :
  (length (filter f l) + length (filter (fun x => negb (f x)) l)
   = length l)%nat.
Proof.
  induction l as [| x l IH]; cbn [filter length]; [reflexivity |].
  destruct (f x); cbn [negb length]; lia.
Qed.

(** X14. Every row of the verdict file is counted once, as unchanged or as
    changed; a row counts as unchanged only when both of its cells are
    present and equal, so a row without a verdict or without a ground-truth
    label always counts as changed. *)
Theorem rows_split_into_matches_and_mismatches (df : list FrameRow) :
  (length (matches df) + length (mismatches df) = length df)%nat
  /\ (forall r, In r (matches df) <->
                In r df /\ exists s, frame_z3_verdict r = Some s
                                     /\ frame_ground_truth_label r = Some s)
  /\ (forall r, In r df ->
                frame_z3_verdict r = None \/ frame_ground_truth_label r = None ->
                In r (mismatches df)).
Proof.
  split; [apply filter_split_length | split].
  - intros r. unfold matches. rewrite filter_In. unfold cell_eqb.
    destruct (frame_z3_verdict r) as [s |],
             (frame_ground_truth_label r) as [t |].
    + destruct (String.eqb_spec s t) as [-> | Hne].
      * split; [intros [H _]; split; [exact H | now exists t] | tauto].
      * split; [intros [_ H]; discriminate |].
        intros [_ (u & Hu & Ht)]. congruence.
    + split; [intros [_ H]; discriminate | intros [_ (u & _ & Hu)]; discriminate].
    + split; [intros [_ H]; discriminate | intros [_ (u & Hu & _)]; discriminate].
    + split; [intros [_ H]; discriminate | intros [_ (u & Hu & _)]; discriminate].
  - intros r Hin Hmiss. unfold mismatches. apply filter_In.
    split; [exact Hin |]. unfold cell_eqb.
    destruct Hmiss as [-> | ->]; [reflexivity |].
    destruct (frame_z3_verdict r); reflexivity.
Qed.

Lemma label_cases (c : Cell) :
  c = Some "NTA"%string \/ c = Some "YTA"%string \/ c = Some "ESH"%string
  \/ c = Some "NAH"%string
  \/ (cell_eqb c (Some "NTA"%string) = false
      /\ cell_eqb c (Some "YTA"%string) = false
      /\ cell_eqb c (Some "ESH"%string) = false
      /\ cell_eqb c (Some "NAH"%string) = false).
Proof.
  destruct c as [s |]; [| repeat right; repeat split; reflexivity].
  unfold cell_eqb.
  destruct (String.eqb_spec s "NTA"); [subst; auto |].
  destruct (String.eqb_spec s "YTA"); [subst; auto |].
  destruct (String.eqb_spec s "ESH"); [subst; auto |].
  destruct (String.eqb_spec s "NAH"); [subst; auto 6 |].
  repeat right. repeat split; reflexivity.
Qed.

Lemma cell_eqb_sym (a b : Cell) : cell_eqb a b = cell_eqb b a.
Proof.
  destruct a as [s |], b as [t |]; cbn [cell_eqb]; try reflexivity.
  apply String.eqb_sym.
Qed.

Lemma crosstab_cons (r : FrameRow) (df : list FrameRow) (row col : string) :
  crosstab (r :: df) row col
  = ((if cell_eqb (frame_ground_truth_label r) (Some row)
         && cell_eqb (frame_z3_verdict r) (Some col) then 1 else 0)
     + crosstab df row col)%nat.
Proof.
  unfold crosstab. cbn [filter].
  destruct (cell_eqb (frame_ground_truth_label r) (Some row)
            && cell_eqb (frame_z3_verdict r) (Some col)); reflexivity.
Qed.

Lemma is_label_false (c : Cell) :
  cell_eqb c (Some "NTA"%string) = false ->
  cell_eqb c (Some "YTA"%string) = false ->
  cell_eqb c (Some "ESH"%string) = false ->
  cell_eqb c (Some "NAH"%string) = false ->
  is_label c = false.
Proof.
  intros H1 H2 H3 H4. unfold is_label, labels. cbn [existsb].
  rewrite H1, H2, H3, H4. reflexivity.
Qed.

Lemma matrix_step (r : FrameRow) (df : list FrameRow) :
  (list_sum (map (fun l => list_sum l) (confusion_matrix (r :: df)))
   = (if is_label (frame_ground_truth_label r)
         && is_label (frame_z3_verdict r) then 1 else 0)
     + list_sum (map (fun l => list_sum l) (confusion_matrix df)))%nat
  /\ (list_sum (diagonal (r :: df))
      = (if cell_eqb (frame_z3_verdict r) (frame_ground_truth_label r)
            && is_label (frame_z3_verdict r) then 1 else 0)
        + list_sum (diagonal df))%nat.
Proof.
  unfold confusion_matrix, diagonal, labels.
  cbn [map list_sum]. rewrite !crosstab_cons.
  destruct (label_cases (frame_ground_truth_label r))
    as [-> | [-> | [-> | [-> | (G1 & G2 & G3 & G4)]]]];
    destruct (label_cases (frame_z3_verdict r))
      as [-> | [-> | [-> | [-> | (V1 & V2 & V3 & V4)]]]];
    try (change (is_label (Some "NTA"%string)) with true);
    try (change (is_label (Some "YTA"%string)) with true);
    try (change (is_label (Some "ESH"%string)) with true);
    try (change (is_label (Some "NAH"%string)) with true);
    try (rewrite (is_label_false _ G1 G2 G3 G4));
    try (rewrite (is_label_false _ V1 V2 V3 V4));
    rewrite ?(cell_eqb_sym (Some _) (frame_ground_truth_label r));
    rewrite ?G1, ?G2, ?G3, ?G4, ?V1, ?V2, ?V3, ?V4;
    rewrite ?Bool.andb_false_r;
    cbn [cell_eqb String.eqb Ascii.eqb Bool.eqb andb];
    unfold list_sum; cbn [fold_right map];
    split; lia.
Qed.

Lemma filter_and_length {A} (f g : A -> bool) (l : list A) :
  (length (filter (fun x => f x && g x) l) <= length (filter f l))%nat.
Proof.
  induction l as [| x l IH]; cbn [filter length]; [lia |].
  destruct (f x), (g x); cbn [andb length]; lia.
Qed.

(** X15. The confusion matrix accounts for exactly the rows whose
    ground-truth label and verdict are both among "NTA", "YTA", "ESH" and
    "NAH": rows with "Unclear", "No Data", "Unknown" or a missing cell are
    in no cell, though they count in the total. Its diagonal counts the
    unchanged rows on those four labels, so it never exceeds the number of
    unchanged verdicts. *)
Theorem confusion_matrix_accounts (df : list FrameRow) :
  list_sum (map (fun l => list_sum l) (confusion_matrix df))
  = length (filter (fun r => is_label (frame_ground_truth_label r)
                             && is_label (frame_z3_verdict r)) df)
  /\ list_sum (diagonal df)
     = length (filter (fun r => cell_eqb (frame_z3_verdict r)
                                         (frame_ground_truth_label r)
                                && is_label (frame_z3_verdict r)) df)
  /\ (list_sum (map (fun l => list_sum l) (confusion_matrix df))
      <= length df)%nat
  /\ (list_sum (diagonal df) <= length (matches df))%nat.
Proof.
  assert (H : list_sum (map (fun l => list_sum l) (confusion_matrix df))
              = length (filter (fun r => is_label (frame_ground_truth_label r)
                                         && is_label (frame_z3_verdict r)) df)
              /\ list_sum (diagonal df)
                 = length (filter (fun r => cell_eqb (frame_z3_verdict r)
                                              (frame_ground_truth_label r)
                                            && is_label (frame_z3_verdict r))
                                  df)).
  { induction df as [| r df [IH1 IH2]]; [split; reflexivity |].
    destruct (matrix_step r df) as [-> ->]. rewrite IH1, IH2.
    cbn [filter].
    destruct (is_label (frame_ground_truth_label r)
              && is_label (frame_z3_verdict r));
      destruct (cell_eqb (frame_z3_verdict r) (frame_ground_truth_label r)
                && is_label (frame_z3_verdict r));
      split; reflexivity. }
  destruct H as [H1 H2]. rewrite H1, H2.
  split; [reflexivity |]. split; [reflexivity |]. split.
  - apply filter_length_le.
  - unfold matches. apply filter_and_length.
Qed.

Example confusion_matrix_sample :
  let df := [ {| frame_z3_verdict := Some "YTA"%string;
                 frame_ground_truth_label := Some "NTA"%string |};
              {| frame_z3_verdict := Some "Unclear"%string;
                 frame_ground_truth_label := Some "NTA"%string |};
              {| frame_z3_verdict := None;
                 frame_ground_truth_label := None |};
              {| frame_z3_verdict := Some "ESH"%string;
                 frame_ground_truth_label := Some "ESH"%string |} ] in
  confusion_matrix df
  = [[0; 1; 0; 0]; [0; 0; 0; 0]; [0; 0; 1; 0]; [0; 0; 0; 0]]%nat
  /\ length (matches df) = 1%nat /\ length (mismatches df) = 3%nat.
Proof. repeat split. Qed.
